(** * Claudeboard: clipboard acquisition, retention cleanup and configuration

  A shallow embedding of the TypeScript services of the extension
  ([src/services/clipboard.ts], [src/services/fileManager.ts],
  [src/services/configuration.ts]) and the properties the specification
  states about them.

  Conventions of the embedding:
  - a JavaScript string is a [string]; its characters stand for code units
    below 256;
  - a [Buffer] is a list of bytes;
  - a JavaScript number is a [number]: [NaN], the two infinities, or an
    exact rational (IEEE rounding is not modelled; every quantity the
    services compute on is an integer far below 2^53 or a day count);
  - a promise is its settled outcome, [Resolved] or [Rejected];
  - the operating system (helper processes, temporary directory, disk) is
    an explicit environment record and an explicit file-system state.

  The macOS service is embedded twice: [Clipboard.MacOS] as it stands in
  [src/services/clipboard.ts], and [Clipboard.MacOSRevised] as the
  multi-strategy revision of release 1.0.1. *)

From Stdlib Require Import ZArith QArith Qround Lia Bool List Ascii String.
From Stdlib Require Import DecimalString DecimalN DecimalFacts DecimalPos.
From stdpp Require Import base option gmap strings.
Import ListNotations.

Local Open Scope string_scope.
Local Open Scope Z_scope.

(** ** JavaScript values *)

Module Js.

Inductive number : Type :=
| NaN
| Infinity (negative : bool)
| Finite (q : Q).

(** [typeof] distinguishes these shapes; only [VNumber] is ['number']. *)
Inductive value : Type :=
| VUndefined
| VNull
| VBoolean (b : bool)
| VNumber (n : number)
| VString (s : string)
| VObject.

Definition of_Z (z : Z) : number := Finite (inject_Z z).

(** [a < b] *)
Definition lt (a b : number) : bool :=
  match a, b with
  | NaN, _ | _, NaN => false
  | Infinity true, Infinity true => false
  | Infinity true, _ => true
  | _, Infinity true => false
  | Infinity false, _ => false
  | _, Infinity false => true
  | Finite x, Finite y => negb (Qle_bool y x)
  end.

(** [a > b] *)
Definition gt (a b : number) : bool := lt b a.

(** [a <= b] *)
Definition le (a b : number) : bool :=
  match a, b with
  | NaN, _ | _, NaN => false
  | Infinity true, _ => true
  | _, Infinity false => true
  | Infinity false, _ => false
  | _, Infinity true => false
  | Finite x, Finite y => Qle_bool x y
  end.

(** [a === b] on numbers *)
Definition strict_eq (a b : number) : bool :=
  match a, b with
  | Finite x, Finite y => Qeq_bool x y
  | Infinity s, Infinity t => Bool.eqb s t
  | _, _ => false
  end.

Definition is_zero (q : Q) : bool := Qeq_bool q 0.
Definition is_neg (q : Q) : bool := negb (Qle_bool 0 q).

(** [a * b] *)
Definition mul (a b : number) : number :=
  match a, b with
  | NaN, _ | _, NaN => NaN
  | Infinity s, Infinity t => Infinity (xorb s t)
  | Infinity s, Finite y | Finite y, Infinity s =>
      if is_zero y then NaN else Infinity (xorb s (is_neg y))
  | Finite x, Finite y => Finite (x * y)
  end.

(** [a - b] *)
Definition sub (a b : number) : number :=
  match a, b with
  | NaN, _ | _, NaN => NaN
  | Infinity s, Infinity t => if Bool.eqb s t then NaN else Infinity s
  | Infinity s, Finite _ => Infinity s
  | Finite _, Infinity t => Infinity (negb t)
  | Finite x, Finite y => Finite (x - y)
  end.

(** [Math.floor] *)
Definition Math_floor (a : number) : number :=
  match a with
  | Finite q => of_Z (Qfloor q)
  | other => other
  end.

(** A number that is an integer between [lo] and [hi]. *)
Definition integer_in (lo hi : Z) (n : number) : Prop :=
  exists z : Z, n = of_Z z /\ lo <= z <= hi.

(** Truthiness, as tested by [if (value)] and [!value]. *)
Definition truthy (v : value) : bool :=
  match v with
  | VUndefined | VNull => false
  | VBoolean b => b
  | VNumber NaN => false
  | VNumber (Infinity _) => true
  | VNumber (Finite q) => negb (Qeq_bool q 0)
  | VString s => negb (String.eqb s EmptyString)
  | VObject => true
  end.

End Js.

(** ** [src/services/configuration.ts] *)

Module Configuration.
Import Js.

(** [vscode.workspace.getConfiguration(section)]: [get key] yields the raw
    setting, [VUndefined] when it is absent. *)
Definition WorkspaceConfiguration : Type := string -> value.

(** The [defaults.retentionDays] field. *)
Definition defaults_retentionDays : number := of_Z 30.

Definition validateRetentionDays (v : value) : number :=
  match v with
  | VNumber n =>
      if gt n (of_Z 0) && le n (of_Z 365)
      then Math_floor n
      else defaults_retentionDays
  | _ => defaults_retentionDays
  end.

Definition getRetentionDays (config : WorkspaceConfiguration) : number :=
  validateRetentionDays (config "retentionDays").

(** [ConfigValidator.isValidRetentionDays]; [Number.isInteger] holds of
    the finite numbers equal to their floor. *)
Definition Number_isInteger (n : number) : bool :=
  match n with
  | Finite q => Qeq_bool q (inject_Z (Qfloor q))
  | _ => false
  end.

Definition isValidRetentionDays (n : number) : bool :=
  Number_isInteger n && gt n (of_Z 0) && le n (of_Z 365).

(** *** The other settings *)

(** A raw setting: a primitive value, or an object given by its properties.
    [Plain VObject] is an object with none of the properties asked for
    (such as [{}] or an array). *)
Inductive setting : Type :=
| Plain (v : value)
| Fields (prop : string -> value).

Definition as_value (s : setting) : value :=
  match s with
  | Plain v => v
  | Fields _ => VObject
  end.

(** [value.key] on a value that is an object. *)
Definition property (s : setting) (key : string) : value :=
  match s with
  | Fields prop => prop key
  | Plain _ => VUndefined
  end.

(** [typeof value === 'object' && value !== null] *)
Definition is_object (s : setting) : bool :=
  match s with
  | Fields _ => true
  | Plain VObject => true
  | Plain _ => false
  end.

(** [getConfiguration(section)] with object-valued settings. *)
Definition Settings : Type := string -> setting.

Record TimeoutConfig : Type := {
  clipboard : number;
  upload : number;
  cleanup : number
}.

Record ExtensionConfig : Type := {
  keybinding : string;
  retentionDays : number;
  timeouts : TimeoutConfig
}.

Definition defaults_keybinding : string := "ctrl+alt+v".

Definition defaults_timeouts : TimeoutConfig :=
  {| clipboard := of_Z 10000; upload := of_Z 30000; cleanup := of_Z 5000 |}.

Definition validOptions : list string :=
  [ "ctrl+alt+v"; "ctrl+shift+v"; "alt+v"; "ctrl+v" ].

(** [validOptions.includes(value)] *)
Definition isValidKeybinding (v : string) : bool :=
  existsb (String.eqb v) validOptions.

Definition validateKeybinding (v : value) : string :=
  match v with
  | VString s => if isValidKeybinding s then s else defaults_keybinding
  | _ => defaults_keybinding
  end.

Definition validateTimeout (v : value) (defaultValue : number) : number :=
  match v with
  | VNumber n =>
      if le (of_Z 1000) n && le n (of_Z 60000)
      then Math_floor n
      else defaultValue
  | _ => defaultValue
  end.

Definition validateTimeouts (v : setting) : TimeoutConfig :=
  if is_object v then
    {| clipboard := validateTimeout (property v "clipboard") (clipboard defaults_timeouts);
       upload := validateTimeout (property v "upload") (upload defaults_timeouts);
       cleanup := validateTimeout (property v "cleanup") (cleanup defaults_timeouts) |}
  else defaults_timeouts.

Definition getConfig (config : Settings) : ExtensionConfig :=
  {| keybinding := validateKeybinding (as_value (config "keybinding"));
     retentionDays := validateRetentionDays (as_value (config "retentionDays"));
     timeouts := validateTimeouts (config "timeouts") |}.

Definition getKeybinding (config : Settings) : string :=
  validateKeybinding (as_value (config "keybinding")).

Definition getTimeouts (config : Settings) : TimeoutConfig :=
  validateTimeouts (config "timeouts").

(** [ConfigValidator.isValidTimeout] *)
Definition isValidTimeout (n : number) : bool :=
  Number_isInteger n && le (of_Z 1000) n && le n (of_Z 60000).

(** [TypeGuards.isTimeoutConfig] and [TypeGuards.isExtensionConfig], on a
    configuration record. *)
Definition isTimeoutConfig (t : TimeoutConfig) : bool :=
  isValidTimeout (clipboard t) && isValidTimeout (upload t) && isValidTimeout (cleanup t).

Definition isExtensionConfig (c : ExtensionConfig) : bool :=
  isValidKeybinding (keybinding c)
  && isValidRetentionDays (retentionDays c)
  && isTimeoutConfig (timeouts c).

End Configuration.

(** ** [src/services/fileManager.ts] *)

Module FileManager.
Import Js.

(** [vscode.FileType] is a bit mask: Unknown = 0, File = 1, Directory = 2,
    SymbolicLink = 64 (a link to a file is 65). *)
Definition FileType : Type := N.
Definition FileType_File : FileType := 1%N.
Definition FileType_Directory : FileType := 2%N.
Definition FileType_SymbolicLink : FileType := 64%N.

Definition DirEntry : Type := (string * FileType)%type.

(** [vscode.Uri.joinPath] on the string form of a uri. *)
Definition joinPath (base name : string) : string := base ++ "/" ++ name.

(** The host: the open workspace folders, what [fs.readDirectory] answers
    for a uri ([None]: it rejects) and whether [fs.delete] rejects. *)
Record Workspace : Type := {
  workspaceFolders : list string;
  readDirectory : string -> option (list DirEntry);
  delete_rejects : string -> bool
}.

(** The two private caches of [WorkspaceFileManager]. *)
Record State : Type := {
  cachedWorkspaceFolder : option string;
  cachedImagesDir : option string
}.

Definition initial : State :=
  {| cachedWorkspaceFolder := None; cachedImagesDir := None |}.

(** [None] stands for the thrown "No workspace folder available". *)
Definition getWorkspaceFolder (ws : Workspace) (st : State)
  : option (string * State) :=
  match cachedWorkspaceFolder st with
  | Some folder => Some (folder, st)
  | None =>
      match workspaceFolders ws with
      | [] => None
      | folder :: _ =>
          Some (folder, {| cachedWorkspaceFolder := Some folder;
                           cachedImagesDir := cachedImagesDir st |})
      end
  end.

Definition getImagesDirectory (ws : Workspace) (st : State)
  : option (string * State) :=
  match cachedImagesDir st with
  | Some dir => Some (dir, st)
  | None =>
      match getWorkspaceFolder ws st with
      | None => None
      | Some (folder, st1) =>
          let dir := joinPath (joinPath folder ".claude") "claude-code-chat-images" in
          Some (dir, {| cachedWorkspaceFolder := cachedWorkspaceFolder st1;
                        cachedImagesDir := Some dir |})
      end
  end.

(** *** The pattern [/^image_(\d+)\./] and [parseInt(_, 10)] *)

Definition is_digit (c : ascii) : bool :=
  let n := N_of_ascii c in ((48 <=? n) && (n <=? 57))%N.

Definition digit_value (c : ascii) : Z := Z.of_N (N_of_ascii c) - 48.

Fixpoint all_digits (s : string) : bool :=
  match s with
  | EmptyString => true
  | String c rest => is_digit c && all_digits rest
  end.

(** The longest run of digits at the head of [s], and what follows it. *)
Fixpoint span_digits (s : string) : string * string :=
  match s with
  | EmptyString => (EmptyString, EmptyString)
  | String c rest =>
      if is_digit c
      then let '(ds, tl) := span_digits rest in (String c ds, tl)
      else (EmptyString, s)
  end.

(** What may follow a longest run of digits: nothing, or a character that is
    not a digit. *)
Definition stops (tl : string) : Prop :=
  match tl with
  | EmptyString => True
  | String c _ => is_digit c = false
  end.

Fixpoint strip_prefix (p s : string) : option string :=
  match p, s with
  | EmptyString, _ => Some s
  | String a p', String b s' => if Ascii.eqb a b then strip_prefix p' s' else None
  | String _ _, EmptyString => None
  end.

(** [fileName.match(/^image_(\d+)\./)]: the capture group on a match.
    [\d+] is greedy, and giving back a digit never helps, since the
    character after a shorter run is a digit and not the dot. *)
Definition match_image (fileName : string) : option string :=
  match strip_prefix "image_" fileName with
  | None => None
  | Some rest =>
      match span_digits rest with
      | (String d ds, String "." _) => Some (String d ds)
      | _ => None
      end
  end.

Fixpoint parse_digits (acc : Z) (s : string) : Z :=
  match s with
  | EmptyString => acc
  | String c rest =>
      if is_digit c then parse_digits (10 * acc + digit_value c) rest else acc
  end.

(** [parseInt(s, 10)] on a string that starts with a digit or is empty
    (no sign and no leading blank, as in a [\d+] capture). *)
Definition parseInt (s : string) : number :=
  match s with
  | EmptyString => NaN
  | String c _ => if is_digit c then of_Z (parse_digits 0 s) else NaN
  end.

Definition isOldImageFile (fileName : string) (cutoffTime : number) : bool :=
  match match_image fileName with
  | None => false
  | Some digits => lt (parseInt digits) cutoffTime
  end.

(** [String(timestamp)] for the non-negative integer [Date.now()]. *)
Definition decimal (t : Z) : string :=
  NilZero.string_of_uint (N.to_uint (Z.to_N t)).

(** [generateFileName], with [Date.now()] passed in. *)
Definition generateFileName (now : Z) (format : string) : string :=
  "image_" ++ decimal now ++ "." ++ format.

(** [Date.now() - (retentionDays * 24 * 60 * 60 * 1000)] *)
Definition cutoffTime (now : Z) (retentionDays : number) : number :=
  sub (of_Z now)
      (mul (mul (mul (mul retentionDays (of_Z 24)) (of_Z 60)) (of_Z 60)) (of_Z 1000)).

(** The predicate given to [files.filter]. *)
Definition cleanup_candidate (cutoff : number) (entry : DirEntry) : bool :=
  let '(fileName, fileType) := entry in
  (fileType =? FileType_File)%N
  && negb (String.eqb fileName ".gitignore")
  && isOldImageFile fileName cutoff.

(** [cleanupOldImages]: the promise always resolves; what is observable
    is the list of file names handed to [fs.delete] and the caches.
    A thrown [getImagesDirectory] or a rejected [readDirectory] lands in
    the [catch] and deletes nothing. *)
Definition cleanupOldImages (ws : Workspace) (now : Z) (retentionDays : number)
    (st : State) : list string * State :=
  if strict_eq retentionDays (of_Z 0) then ([], st)
  else
    match getImagesDirectory ws st with
    | None => ([], st)
    | Some (imagesDir, st1) =>
        match readDirectory ws imagesDir with
        | None => ([], st1)
        | Some files =>
            (map fst (List.filter (cleanup_candidate (cutoffTime now retentionDays)) files),
             st1)
        end
    end.

(** The listing of the images directory once the requested deletions have
    settled: an entry goes away when its deletion was requested and
    [fs.delete] did not reject (a rejection is only logged). *)
Definition directory_after (ws : Workspace) (imagesDir : string)
    (requested : list string) (files : list DirEntry) : list DirEntry :=
  List.filter (fun entry : DirEntry =>
            negb (existsb (String.eqb (fst entry)) requested
                  && negb (delete_rejects ws (joinPath imagesDir (fst entry)))))
         files.

End FileManager.

(** ** The operating system seen by [src/services/clipboard.ts] *)

Module Os.

Definition Buffer : Type := list Byte.byte.
Definition Error : Type := string.

(** A settled promise. *)
Inductive Promise (A : Type) : Type :=
| Resolved (a : A)
| Rejected (e : Error).
Arguments Resolved {A} a.
Arguments Rejected {A} e.

(** What the callback of [child_process.exec] receives: an error (the
    process could not be spawned, timed out, or exited non-zero), or the
    captured standard output. *)
Inductive ExecResult (A : Type) : Type :=
| ExecError (e : Error)
| ExecOk (stdout : A).
Arguments ExecError {A} e.
Arguments ExecOk {A} stdout.

(** A synchronous call that may throw. *)
Inductive Try (A : Type) : Type :=
| Throws (e : Error)
| Returns (a : A).
Arguments Throws {A} e.
Arguments Returns {A} a.

(** *** [String.prototype.trim], [startsWith], [substring] *)

Definition is_whitespace (c : ascii) : bool :=
  let n := N_of_ascii c in
  (((9 <=? n) && (n <=? 13)) || (n =? 32) || (n =? 160))%N.

Fixpoint trimStart (s : string) : string :=
  match s with
  | EmptyString => EmptyString
  | String c rest => if is_whitespace c then trimStart rest else s
  end.

Fixpoint trimEnd (s : string) : string :=
  match s with
  | EmptyString => EmptyString
  | String c rest =>
      match trimEnd rest with
      | EmptyString => if is_whitespace c then EmptyString else String c EmptyString
      | kept => String c kept
      end
  end.

Definition trim (s : string) : string := trimEnd (trimStart s).

Definition startsWith (s searchString : string) : bool :=
  String.prefix searchString s.

Fixpoint substring_from (n : nat) (s : string) : string :=
  match n, s with
  | O, _ => s
  | S n', String _ rest => substring_from n' rest
  | S _, EmptyString => EmptyString
  end.

(** *** The disk *)

Inductive node : Type :=
| File (content : Buffer)
| Directory.

Abbreviation disk := (gmap string node).

Definition existsSync (fs : disk) (p : string) : bool :=
  match fs !! p with
  | Some _ => true
  | None => false
  end.

(** [None]: the call throws (no such file, or a directory). *)
Definition readFileSync (fs : disk) (p : string) : option Buffer :=
  match fs !! p with
  | Some (File content) => Some content
  | _ => None
  end.

(** [refused p] tells whether the system refuses to remove [p] (the file
    is held open, access is denied, the directory is not empty).
    [None]: the call throws. *)
Definition unlinkSync (refused : string -> bool) (fs : disk) (p : string)
  : option disk :=
  match fs !! p with
  | Some (File _) => if refused p then None else Some (delete p fs)
  | _ => None
  end.

Definition rmdirSync (refused : string -> bool) (fs : disk) (p : string)
  : option disk :=
  match fs !! p with
  | Some Directory => if refused p then None else Some (delete p fs)
  | _ => None
  end.

(** [path.join] of a directory and a file name, on Windows. *)
Definition path_join (dir name : string) : string := dir ++ "\" ++ name.

(** [String.prototype.includes] *)
Fixpoint includes (s searchString : string) : bool :=
  String.prefix searchString s
  || match s with
     | EmptyString => false
     | String _ rest => includes rest searchString
     end.

(** [buffer.toString()], byte by byte (what the services look for in the
    text is plain ASCII). *)
Definition toString (b : Buffer) : string := string_of_list_byte b.

End Os.

(** ** [src/services/clipboard.ts] *)

Module Clipboard.
Import Os.

Record ImageData : Type := {
  buffer : Buffer;
  format : string
}.

(** [ImageData | null] *)
Definition ClipboardResult : Type := option ImageData.

(** [buffer.length > 0]; a [Buffer] object is always truthy. *)
Definition nonempty (b : Buffer) : bool :=
  match b with
  | [] => false
  | _ :: _ => true
  end.

(** A shell that answers a command line with the outcome of the process. *)
Definition Shell : Type := string -> ExecResult Buffer.

Record ManagedTempFile : Type := {
  filePath : string;
  dirPath : string
}.

Definition getPath (t : ManagedTempFile) : string := filePath t.

(** [ManagedTempFile.dispose]: the two removals sit in one [try]; a throw of
    the first skips the second, and the [catch] keeps the disk as it is. *)
Definition dispose (refused : string -> bool) (t : ManagedTempFile) (fs : disk)
  : disk :=
  let unlinked :=
    if existsSync fs (filePath t) then unlinkSync refused fs (filePath t)
    else Some fs in
  match unlinked with
  | None => fs
  | Some fs1 =>
      if existsSync fs1 (dirPath t) then
        match rmdirSync refused fs1 (dirPath t) with
        | None => fs1
        | Some fs2 => fs2
        end
      else fs1
  end.

(** *** Windows *)

Module Windows.

(** What the machine contributes to one [getImage]:
    - [tmpdir]: [os.tmpdir()];
    - [mkdtemp]: the six characters [fs.mkdtempSync] appends to its prefix,
      or the error it throws;
    - [randomHex]: [crypto.randomBytes(8).toString('hex')];
    - [powershell]: how the script process ended;
    - [powershell_saved]: the bytes [$image.Save] left at the path it was
      given, if it wrote any (the escaped path names the same file);
    - [removal_refused]: see [Os.unlinkSync]. *)
Record Env : Type := {
  tmpdir : string;
  mkdtemp : Try string;
  randomHex : string;
  powershell : ExecResult string;
  powershell_saved : option Buffer;
  removal_refused : string -> bool
}.

(** [fs.mkdtempSync(prefix)]: creates a directory that did not exist. *)
Definition mkdtempSync (env : Env) (fs : disk) (prefix : string)
  : Try (string * disk) :=
  match mkdtemp env with
  | Throws e => Throws e
  | Returns unique =>
      let dir := prefix ++ unique in
      if existsSync fs dir then Throws "EEXIST"
      else Returns (dir, <[dir := Directory]> fs)
  end.

(** [path.resolve] leaves the absolute path as it is. *)
Definition createTempFile (env : Env) (fs : disk)
  : Try (ManagedTempFile * disk) :=
  match mkdtempSync env fs (path_join (tmpdir env) "vscode-clipboard-") with
  | Throws e => Throws e
  | Returns (tempDir, fs1) =>
      let tempFile := path_join tempDir ("clipboard-" ++ randomHex env ++ ".png") in
      Returns ({| filePath := tempFile; dirPath := tempDir |}, fs1)
  end.

(** The disk once the script process has ended. *)
Definition after_script (env : Env) (path : string) (fs : disk) : disk :=
  match powershell_saved env with
  | Some content => <[path := File content]> fs
  | None => fs
  end.

Definition executeClipboardCommand (env : Env) (path : string) (fs : disk)
  : Promise bool * disk :=
  let fs1 := after_script env path fs in
  match powershell env with
  | ExecError e => (Rejected e, fs1)
  | ExecOk stdout =>
      let result := trim stdout in
      (Resolved (startsWith result "success"), fs1)
  end.

(** The body of the [try] in [getImage]. *)
Definition acquire (env : Env) (tempFile : ManagedTempFile) (fs : disk)
  : Promise ClipboardResult * disk :=
  match executeClipboardCommand env (getPath tempFile) fs with
  | (Rejected e, fs1) => (Rejected e, fs1)
  | (Resolved hasImage, fs1) =>
      if negb hasImage || negb (existsSync fs1 (getPath tempFile))
      then (Resolved None, fs1)
      else
        match readFileSync fs1 (getPath tempFile) with
        | None => (Rejected "EISDIR", fs1)
        | Some buffer =>
            (Resolved (Some {| buffer := buffer; format := "png" |}), fs1)
        end
  end.

(** [getImage]: [try { ... } finally { tempFile.dispose() }]. *)
Definition getImage (env : Env) (fs : disk) : Promise ClipboardResult * disk :=
  match createTempFile env fs with
  | Throws e => (Rejected e, fs)
  | Returns (tempFile, fs1) =>
      let '(outcome, fs2) := acquire env tempFile fs1 in
      (outcome, dispose (removal_refused env) tempFile fs2)
  end.

(** [hasImage], given how the presence script ended. *)
Definition hasImage (ended : ExecResult string) : Promise bool :=
  match ended with
  | ExecError e => Rejected e
  | ExecOk stdout => Resolved (String.eqb (trim stdout) "true")
  end.

End Windows.

(** *** Linux *)

Module Linux.

Definition commands : list string :=
  [ "xclip -selection clipboard -t image/png -o";
    "wl-paste -t image/png" ].

(** The [for] loop of [getImage]; a rejected command [continue]s. *)
Fixpoint try_commands (exec : Shell) (cmds : list string) : ClipboardResult :=
  match cmds with
  | [] => None
  | command :: rest =>
      match exec command with
      | ExecOk buffer =>
          if nonempty buffer
          then Some {| buffer := buffer; format := "png" |}
          else try_commands exec rest
      | ExecError _ => try_commands exec rest
      end
  end.

Definition getImage (exec : Shell) : Promise ClipboardResult :=
  Resolved (try_commands exec commands).

Definition presence_commands : list string :=
  [ "xclip -selection clipboard -t TARGETS -o";
    "wl-paste --list-types" ].

Definition lists_image (output : Buffer) : bool :=
  let outputStr := toString output in
  includes outputStr "image/png" || includes outputStr "image/jpeg".

(** The loop of [hasImage]: the first command that does not fail answers. *)
Fixpoint first_answer (exec : Shell) (cmds : list string) : bool :=
  match cmds with
  | [] => false
  | command :: rest =>
      match exec command with
      | ExecOk output => lists_image output
      | ExecError _ => first_answer exec rest
      end
  end.

Definition hasImage (exec : Shell) : Promise bool :=
  Resolved (first_answer exec presence_commands).

End Linux.

(** *** macOS, as in [src/services/clipboard.ts] *)

Module MacOS.

Definition getImage (exec : Shell) : Promise ClipboardResult :=
  match exec "pbpaste -Prefer png" with
  | ExecOk buffer =>
      if nonempty buffer
      then Resolved (Some {| buffer := buffer; format := "png" |})
      else Resolved None
  | ExecError _ => Resolved None
  end.

Definition hasImage (exec : Shell) : Promise bool :=
  match exec "pbpaste -Prefer public.png" with
  | ExecOk output => Resolved (nonempty output)
  | ExecError _ => Resolved false
  end.

End MacOS.

(** *** macOS, in the 1.0.1 revision of [clipboard.ts]

    The revision the changelog announces for release 1.0.1: an AppleScript
    strategy first, then [pbpaste] for each of three type identifiers. *)

Module MacOSRevised.

(** - [osascript]: how the AppleScript process ended, with its standard
      output as text;
    - [osascript_wrote]: the temporary file the script left on disk, if any
      (also when a later step of the script failed);
    - [shell]: the answers of the [pbpaste] commands;
    - [removal_refused]: see [Os.unlinkSync]. *)
Record Env : Type := {
  osascript : ExecResult string;
  osascript_wrote : option (string * Buffer);
  shell : Shell;
  removal_refused : string -> bool
}.

Definition after_script (env : Env) (fs : disk) : disk :=
  match osascript_wrote env with
  | Some (path, content) => <[path := File content]> fs
  | None => fs
  end.

Definition getImageViaAppleScript (env : Env) (fs : disk)
  : Promise Buffer * disk :=
  let fs1 := after_script env fs in
  match osascript env with
  | ExecError e => (Rejected ("AppleScript error: " ++ e), fs1)
  | ExecOk stdout =>
      let output := trim stdout in
      if startsWith output "ERROR:"
      then (Rejected (substring_from 6 output), fs1)
      else
        let tempPath := output in
        match readFileSync fs1 tempPath with
        | None => (Rejected "Failed to read temp file", fs1)
        | Some buffer =>
            match unlinkSync (removal_refused env) fs1 tempPath with
            | None => (Rejected "Failed to read temp file", fs1)
            | Some fs2 => (Resolved buffer, fs2)
            end
        end
  end.

Definition getImageViaPbpaste (env : Env) (uti : string) : ExecResult Buffer :=
  shell env ("pbpaste -Prefer " ++ uti).

Definition formats : list (string * string) :=
  [ ("public.png", "png"); ("public.tiff", "tiff"); ("public.jpeg", "jpeg") ].

(** The [for] loop over [formats]. *)
Fixpoint try_formats (env : Env) (fmts : list (string * string))
  : ClipboardResult :=
  match fmts with
  | [] => None
  | (uti, fmt) :: rest =>
      match getImageViaPbpaste env uti with
      | ExecOk buffer =>
          if nonempty buffer
          then Some {| buffer := buffer; format := fmt |}
          else try_formats env rest
      | ExecError _ => try_formats env rest
      end
  end.

Definition getImage (env : Env) (fs : disk) : Promise ClipboardResult * disk :=
  match getImageViaAppleScript env fs with
  | (Resolved buffer, fs1) =>
      if nonempty buffer
      then (Resolved (Some {| buffer := buffer; format := "png" |}), fs1)
      else (Resolved (try_formats env formats), fs1)
  | (Rejected _, fs1) => (Resolved (try_formats env formats), fs1)
  end.

(** [executeCommand(command)] in text mode: the output comes back as a
    buffer of the text; failures are wrapped. *)
Definition executeCommand (env : Env) (command : string) : Promise Buffer :=
  match shell env command with
  | ExecError e => Rejected ("Command failed: " ++ e)
  | ExecOk stdout => Resolved stdout
  end.

Definition info_tokens : list string := [ "image"; "PNGf"; "TIFF"; "JPEG" ].

(** The command line [osascript -e], then [clipboard info] in double quotes. *)
Definition clipboard_info_command : string :=
  let quote := String (ascii_of_nat 34) EmptyString in
  "osascript -e " ++ quote ++ "clipboard info" ++ quote.

(** [hasImage], given how the AppleScript presence check ended. *)
Definition hasImage (env : Env) (presence : ExecResult string) : Promise bool :=
  match presence with
  | ExecOk result => Resolved (String.eqb (trim result) "true")
  | ExecError _ =>
      match executeCommand env clipboard_info_command with
      | Resolved output =>
          let info := toString output in
          Resolved (existsb (includes info) info_tokens)
      | Rejected _ => Resolved false
      end
  end.

End MacOSRevised.

(** *** [createClipboardService] and the service interface *)

Inductive Variant : Type :=
| WindowsService
| LinuxService
| MacOSService.

Definition createClipboardService (platform : string) : Try Variant :=
  if String.eqb platform "win32" then Returns WindowsService
  else if String.eqb platform "linux" then Returns LinuxService
  else if String.eqb platform "darwin" then Returns MacOSService
  else Throws ("Unsupported platform: " ++ platform).

(** The machine a service runs on. *)
Record Machine : Type := {
  windows : Windows.Env;
  exec : Shell
}.

(** [service.getImage()] through the interface. *)
Definition getImage (service : Variant) (m : Machine) (fs : disk)
  : Promise ClipboardResult * disk :=
  match service with
  | WindowsService => Windows.getImage (windows m) fs
  | LinuxService => (Linux.getImage (exec m), fs)
  | MacOSService => (MacOS.getImage (exec m), fs)
  end.

(** The formats the specification enumerates. *)
Definition supported_format (f : string) : Prop :=
  f = "png" \/ f = "tiff" \/ f = "jpeg".

(** A result that carries bytes and one of the supported formats. *)
Definition well_formed (r : ClipboardResult) : Prop :=
  match r with
  | None => True
  | Some image => (0 < length (buffer image))%nat /\ supported_format (format image)
  end.

End Clipboard.

(** ** [src/common/result.ts] *)

Module Results.
Import Os.

(** [Success<T> | Failure<E>], told apart by the [success] field. *)
Inductive Result (T E : Type) : Type :=
| Success (data : T)
| Failure (error : E).
Arguments Success {T E} data.
Arguments Failure {T E} error.

Definition map {T U E : Type} (result : Result T E) (fn : T -> U) : Result U E :=
  match result with
  | Success data => Success (fn data)
  | Failure error => Failure error
  end.

Definition flatMap {T U E : Type} (result : Result T E) (fn : T -> Result U E)
  : Result U E :=
  match result with
  | Success data => fn data
  | Failure error => Failure error
  end.

Definition mapError {T E F : Type} (result : Result T E) (fn : E -> F)
  : Result T F :=
  match result with
  | Failure error => Failure (fn error)
  | Success data => Success data
  end.

(** The loop of [combine]: [values] is the array pushed to so far. *)
Fixpoint combine_from {T E : Type} (values : list T) (results : list (Result T E))
  : Result (list T) E :=
  match results with
  | [] => Success values
  | Failure error :: _ => Failure error
  | Success data :: rest => combine_from (values ++ [data]) rest
  end.

Definition combine {T E : Type} (results : list (Result T E)) : Result (list T) E :=
  combine_from [] results.

(** A promise whose rejection carries a value of type [R]. *)
Inductive Thenable (A R : Type) : Type :=
| Fulfilled (a : A)
| Broken (r : R).
Arguments Fulfilled {A R} a.
Arguments Broken {A R} r.

(** What a [catch] receives: an [Error], or some other value, kept as the
    text [String(value)]. *)
Inductive thrown : Type :=
| AnError (e : Error)
| Other (text : string).

(** [error instanceof Error ? error : new Error(String(error))] *)
Definition as_error (t : thrown) : Error :=
  match t with
  | AnError e => e
  | Other text => text
  end.

(** [AsyncResult.map]: [fn] may return a value or a promise, or throw. *)
Definition async_map {T U R : Type} (resultPromise : Thenable (Result T Error) R)
    (fn : T -> Thenable U thrown) : Thenable (Result U Error) R :=
  match resultPromise with
  | Broken r => Broken r
  | Fulfilled (Failure error) => Fulfilled (Failure error)
  | Fulfilled (Success data) =>
      match fn data with
      | Fulfilled mapped => Fulfilled (Success mapped)
      | Broken t => Fulfilled (Failure (as_error t))
      end
  end.

(** [AsyncResult.flatMap] *)
Definition async_flatMap {T U E R : Type} (resultPromise : Thenable (Result T E) R)
    (fn : T -> Thenable (Result U E) R) : Thenable (Result U E) R :=
  match resultPromise with
  | Broken r => Broken r
  | Fulfilled (Success data) => fn data
  | Fulfilled (Failure error) => Fulfilled (Failure error)
  end.

(** [ExtensionError] and its subclasses; the free-form [context] record is
    left out. *)
Record ExtensionError : Type := {
  name : string;
  code : string;
  message : string
}.

Definition ClipboardError (msg : string) : ExtensionError :=
  {| name := "ClipboardError"; code := "CLIPBOARD_ERROR"; message := msg |}.

Definition FileSystemError (msg : string) : ExtensionError :=
  {| name := "FileSystemError"; code := "FILESYSTEM_ERROR"; message := msg |}.

Definition ExtensionResult (T : Type) : Type := Result T ExtensionError.

End Results.

(** ** [src/services/fileManager.ts]: writing image files *)

Module ImageStore.
Import Js Os FileManager.

(** [vscode.workspace.fs] on the workspace disk. A call can be turned down
    by the host (no access, read-only provider, ...):
    - [mkdir_rejects], [stat_rejects]: [createDirectory], [stat] reject;
    - [write_error]: the error [writeFile] rejects with, if it does;
    - [delete_rejects] of the workspace: [delete] rejects. *)
Record Host : Type := {
  workspace : Workspace;
  mkdir_rejects : string -> bool;
  stat_rejects : string -> bool;
  write_error : string -> option Error
}.

(** [fs.createDirectory]: [None] when it rejects. *)
Definition createDirectory (h : Host) (uri : string) (fs : disk) : option disk :=
  if mkdir_rejects h uri then None
  else
    match fs !! uri with
    | None => Some (<[uri := Directory]> fs)
    | Some Directory => Some fs
    | Some (File _) => None
    end.

(** [fs.stat]: whether it resolves. *)
Definition stat (h : Host) (uri : string) (fs : disk) : bool :=
  existsSync fs uri && negb (stat_rejects h uri).

(** [fs.writeFile]: creates or overwrites the file. *)
Definition writeFile (h : Host) (uri : string) (content : Buffer) (fs : disk)
  : Try disk :=
  match write_error h uri with
  | Some e => Throws e
  | None =>
      match fs !! uri with
      | Some Directory => Throws "EISDIR"
      | _ => Returns (<[uri := File content]> fs)
      end
  end.

(** [fs.delete]: [None] when it rejects. *)
Definition delete_uri (h : Host) (uri : string) (fs : disk) : option disk :=
  if delete_rejects (workspace h) uri then None
  else
    match fs !! uri with
    | Some _ => Some (delete uri fs)
    | None => None
    end.

Record ManagedImageFile : Type := {
  uri : string;
  shouldCleanup : bool
}.

(** [new ManagedImageFile(uri)]: [shouldCleanup] defaults to [false]. *)
Definition new_ManagedImageFile (u : string) : ManagedImageFile :=
  {| uri := u; shouldCleanup := false |}.

(** [uri.fsPath] *)
Definition getPath (f : ManagedImageFile) : string := uri f.

(** [dispose]: a rejected deletion is ignored. *)
Definition dispose (h : Host) (f : ManagedImageFile) (fs : disk) : disk :=
  if shouldCleanup f then
    match delete_uri h (uri f) fs with
    | Some fs1 => fs1
    | None => fs
    end
  else fs.

(** [new TextEncoder().encode('*\n')] *)
Definition gitignoreData : Buffer := [Byte.x2a; Byte.x0a].

Definition ensureGitignoreExists (h : Host) (imagesDir : string) (fs : disk)
  : Promise unit * disk :=
  let gitignorePath := joinPath imagesDir ".gitignore" in
  if stat h gitignorePath fs then (Resolved tt, fs)
  else
    match writeFile h gitignorePath gitignoreData fs with
    | Returns fs1 => (Resolved tt, fs1)
    | Throws e => (Rejected e, fs)
    end.

Definition no_workspace_folder : Error :=
  "No workspace folder available. Please open a folder in VS Code.".

Definition ensureDirectoryExists (h : Host) (st : State) (fs : disk)
  : Promise unit * State * disk :=
  match getImagesDirectory (workspace h) st with
  | None => (Rejected no_workspace_folder, st, fs)
  | Some (imagesDir, st1) =>
      let fs1 :=
        match createDirectory h imagesDir fs with
        | Some created => created
        | None => fs
        end in
      let '(outcome, fs2) := ensureGitignoreExists h imagesDir fs1 in
      (outcome, st1, fs2)
  end.

(** [createImageFile], with [Date.now()] passed in. *)
Definition createImageFile (h : Host) (now : Z) (imageData : Buffer)
    (format : string) (st : State) (fs : disk)
  : Promise ManagedImageFile * State * disk :=
  match ensureDirectoryExists h st fs with
  | (Rejected e, st1, fs1) => (Rejected e, st1, fs1)
  | (Resolved _, st1, fs1) =>
      match getImagesDirectory (workspace h) st1 with
      | None => (Rejected no_workspace_folder, st1, fs1)
      | Some (imagesDir, st2) =>
          let fileName := generateFileName now format in
          let imageUri := joinPath imagesDir fileName in
          match writeFile h imageUri imageData fs1 with
          | Throws e => (Rejected e, st2, fs1)
          | Returns fs2 => (Resolved (new_ManagedImageFile imageUri), st2, fs2)
          end
      end
  end.

End ImageStore.

(** ** [src/commands/uploadImage.ts] and [src/services/progress.ts] *)

Module Workflow.
Import Js Os Clipboard Results.

(** What the user gets to see, in the order it happens. *)
Inductive Event : Type :=
| ProgressShown (title : string)
| ProgressReport (message : string) (increment : Z)
| InformationMessage (text : string)
| WarningMessage (text : string)
| ErrorMessage (text : string)
| EditorInsert (text : string)
| TerminalSendText (text : string).

Inductive InsertDestination : Type :=
| editor
| terminal.

Definition destination_name (d : InsertDestination) : string :=
  match d with
  | editor => "editor"
  | terminal => "terminal"
  end.

Record ProgressStep : Type := {
  step_message : string;
  step_increment : Z
}.

(** [ProgressSteps] *)
Definition preparing : ProgressStep :=
  {| step_message := "Preparing image..."; step_increment := 30 |}.
Definition uploading : ProgressStep :=
  {| step_message := "Uploading..."; step_increment := 50 |}.
Definition inserting : ProgressStep :=
  {| step_message := "Inserting link..."; step_increment := 20 |}.
Definition cleaning : ProgressStep :=
  {| step_message := "Cleaning up..."; step_increment := 10 |}.

(** The editor host:
    - [remoteName]: [vscode.env.remoteName], absent when the window is local;
    - [activeTextEditor]: the active editor, given by what its [edit] settles
      to (whether the edit was applied), or none;
    - [activeTerminal]: the active terminal, given by whether [sendText]
      returns, or none. *)
Record Window : Type := {
  remoteName : option string;
  activeTextEditor : option (Promise bool);
  activeTerminal : option (Try unit)
}.

Section Command.

(** The state behind the services (clipboard, disk, settings). *)
Variable S : Type.

(** [ImageFile], as far as the command uses it. *)
Record ImageFile : Type := {
  file_path : string;
  file_dispose : S -> S
}.

(** [CommandDependencies]: the services behind their interfaces. *)
Record Dependencies : Type := {
  clipboard_getImage : S -> Promise ClipboardResult * S;
  clipboard_clear : S -> Promise unit * S;
  fileManager_cleanupOldImages : number -> S -> Promise unit * S;
  fileManager_createImageFile : Buffer -> string -> S -> Promise ImageFile * S;
  config_getRetentionDays : S -> number;
  config_getClearClipboardAfterUpload : S -> value
}.

Record World : Type := {
  services : S;
  shown : list Event
}.

Definition log (e : Event) (w : World) : World :=
  {| services := services w; shown := shown w ++ [e] |}.

Definition with_services (s : S) (w : World) : World :=
  {| services := s; shown := shown w |}.

Definition report (step : ProgressStep) (w : World) : World :=
  log (ProgressReport (step_message step) (step_increment step)) w.

(** [NotificationProgressService.withProgress]: a notification with the
    title, and the task. *)
Definition withProgress {A : Type} (title : string) (task : World -> A * World)
    (w : World) : A * World :=
  task (log (ProgressShown title) w).

Variable deps : Dependencies.
Variable window : Window.

Definition no_remote_message : string :=
  "No remote connection detected. Please connect to a server using Remote-SSH to upload images.".

(** [!vscode.env.remoteName] fails for a missing and for an empty name. *)
Definition validateRemoteConnection : ExtensionResult unit :=
  match remoteName window with
  | None => Failure (ClipboardError no_remote_message)
  | Some name =>
      if String.eqb name EmptyString
      then Failure (ClipboardError no_remote_message)
      else Success tt
  end.

Definition checkClipboard (w : World) : ExtensionResult ImageData * World :=
  match clipboard_getImage deps (services w) with
  | (Resolved None, s) =>
      (Failure (ClipboardError "No image found in clipboard"), with_services s w)
  | (Resolved (Some imageData), s) => (Success imageData, with_services s w)
  | (Rejected _, s) =>
      (Failure (ClipboardError "Failed to access clipboard"), with_services s w)
  end.

Definition insertImageUrl (url : string) (destination : InsertDestination)
    (w : World) : ExtensionResult unit * World :=
  let failed :=
    Failure (FileSystemError
               ("Failed to insert image URL into " ++ destination_name destination)) in
  match destination with
  | editor =>
      match activeTextEditor window with
      | None => (Failure (FileSystemError "No active editor available"), w)
      | Some (Resolved applied) =>
          (Success tt, if applied then log (EditorInsert url) w else w)
      | Some (Rejected _) => (failed, w)
      end
  | terminal =>
      match activeTerminal window with
      | None => (Failure (FileSystemError "No active terminal available"), w)
      | Some (Returns _) => (Success tt, log (TerminalSendText url) w)
      | Some (Throws _) => (failed, w)
      end
  end.

Definition upload_failed : ExtensionResult string :=
  Failure (FileSystemError "Failed to upload image").

(** [OptimizedImageUploadCommand.uploadAndInsert]; every rejection inside
    lands in the [catch]. *)
Definition uploadAndInsert (imageData : ImageData) (destination : InsertDestination)
    (w : World) : ExtensionResult string * World :=
  let w := report preparing w in
  let retentionDays := config_getRetentionDays deps (services w) in
  match fileManager_cleanupOldImages deps retentionDays (services w) with
  | (Rejected _, s) => (upload_failed, with_services s w)
  | (Resolved _, s) =>
      let w := report uploading (with_services s w) in
      match fileManager_createImageFile deps (buffer imageData) (format imageData)
              (services w) with
      | (Rejected _, s) => (upload_failed, with_services s w)
      | (Resolved imageFile, s) =>
          let w := report inserting (with_services s w) in
          match insertImageUrl (file_path imageFile) destination w with
          | (Failure error, w) =>
              (Failure error, with_services (file_dispose imageFile (services w)) w)
          | (Success _, w) =>
              let w := report cleaning w in
              let cleared :=
                if truthy (config_getClearClipboardAfterUpload deps (services w))
                then clipboard_clear deps (services w)
                else (Resolved tt, services w) in
              match cleared with
              | (Rejected _, s) => (upload_failed, with_services s w)
              | (Resolved _, s) =>
                  let imageUrl := file_path imageFile in
                  (Success imageUrl,
                   log (InformationMessage ("Image uploaded: " ++ imageUrl))
                       (with_services s w))
              end
          end
      end
  end.

(** [OptimizedImageUploadCommand.execute] *)
Definition execute (destination : InsertDestination) (w : World)
  : ExtensionResult string * World :=
  match validateRemoteConnection with
  | Failure error => (Failure error, w)
  | Success _ =>
      match withProgress "Checking clipboard..." checkClipboard w with
      | (Failure error, w1) =>
          (Failure error, log (WarningMessage (message error)) w1)
      | (Success imageData, w1) =>
          withProgress "Uploading image to Server..."
            (uploadAndInsert imageData destination) w1
      end
  end.

(** [handleUploadCommand]: [createUploadImageCommand] builds the optimized
    command. *)
Definition handleUploadCommand (destination : InsertDestination) (w : World)
  : World :=
  match execute destination w with
  | (Failure error, w1) => log (ErrorMessage ("Upload error: " ++ message error)) w1
  | (Success _, w1) => w1
  end.

End Command.

Arguments file_path {S} _.
Arguments file_dispose {S} _ _.
Arguments services {S} _.
Arguments shown {S} _.
Arguments clipboard_getImage {S} _ _.
Arguments clipboard_clear {S} _ _.
Arguments fileManager_cleanupOldImages {S} _ _ _.
Arguments fileManager_createImageFile {S} _ _ _ _.
Arguments config_getRetentionDays {S} _ _.
Arguments config_getClearClipboardAfterUpload {S} _ _.

(** Whether a link can be put at the destination: there is an editor whose
    edit settles, or a terminal that takes the text. *)
Definition can_insert (window : Window) (destination : InsertDestination) : bool :=
  match destination with
  | editor =>
      match activeTextEditor window with
      | Some (Resolved _) => true
      | _ => false
      end
  | terminal =>
      match activeTerminal window with
      | Some (Returns _) => true
      | _ => false
      end
  end.

(** What the destination receives. *)
Definition insertion_events (window : Window) (url : string)
    (destination : InsertDestination) : list Event :=
  match destination with
  | editor =>
      match activeTextEditor window with
      | Some (Resolved true) => [EditorInsert url]
      | _ => []
      end
  | terminal =>
      match activeTerminal window with
      | Some (Returns _) => [TerminalSendText url]
      | _ => []
      end
  end.

(** A remote window: [remoteName] is a non-empty name. *)
Definition remote (window : Window) : Prop :=
  exists name, remoteName window = Some name /\ name <> EmptyString.

Definition progress_event (step : ProgressStep) : Event :=
  ProgressReport (step_message step) (step_increment step).

(** The message of the failure when the clipboard gives no image. *)
Definition clipboard_message (outcome : Promise ClipboardResult) : string :=
  match outcome with
  | Resolved _ => "No image found in clipboard"
  | Rejected _ => "Failed to access clipboard"
  end.

(** What is shown from the start of an upload up to the insertion. *)
Definition upload_prefix : list Event :=
  [ ProgressShown "Checking clipboard...";
    ProgressShown "Uploading image to Server...";
    progress_event preparing;
    progress_event uploading;
    progress_event inserting ].

End Workflow.

(** ** The vocabulary of the specification *)

Module Spec.
Import Js Os Clipboard FileManager.

(** A name of the shape [image_<digits>.] whose digits, read as a number,
    are strictly below the cutoff. *)
Definition old_image (cutoff : number) (name : string) : Prop :=
  exists digits rest,
    name = "image_" ++ digits ++ "." ++ rest /\
    digits <> EmptyString /\ all_digits digits = true /\
    lt (parseInt digits) cutoff = true.

(** An entry the retention cleanup may delete. *)
Definition deletable (cutoff : number) (entry : DirEntry) : Prop :=
  snd entry = FileType_File /\
  fst entry <> ".gitignore" /\
  old_image cutoff (fst entry).

(** The directory of the retention scenario: one very old image and one
    written at time [fresh]. *)
Definition retention_listing (fresh : Z) : list DirEntry :=
  [ ("image_1000.png", FileType_File);
    (generateFileName fresh "png", FileType_File) ].

(** The clipboard holds no image: the helper tools run, and report no image
    or print nothing. *)
Definition no_image (service : Variant) (m : Machine) (fs : disk) : Prop :=
  match service with
  | WindowsService =>
      exists tempFile fs1 stdout,
        Windows.createTempFile (windows m) fs = Returns (tempFile, fs1) /\
        Windows.powershell (windows m) = ExecOk stdout /\
        startsWith (trim stdout) "success" = false
  | LinuxService =>
      forall command, In command Linux.commands -> exec m command = ExecOk []
  | MacOSService => exec m "pbpaste -Prefer png" = ExecOk []
  end.

(** The helper process of the service could not be run to completion. *)
Definition helper_failed (service : Variant) (m : Machine) : Prop :=
  match service with
  | WindowsService => exists e, Windows.powershell (windows m) = ExecError e
  | LinuxService => forall command, exists e, exec m command = ExecError e
  | MacOSService => exists e, exec m "pbpaste -Prefer png" = ExecError e
  end.

Definition rejected {A : Type} (p : Promise A) : Prop :=
  exists e, p = Rejected e.

(** Neither the temporary file nor its directory is on disk. *)
Definition no_artifact (t : ManagedTempFile) (fs : disk) : Prop :=
  existsSync fs (filePath t) = false /\ existsSync fs (dirPath t) = false.

(** Every entry of the disk lies in a directory that exists. *)
Definition consistent (fs : disk) : Prop :=
  forall dir name, is_Some (fs !! path_join dir name) -> fs !! dir = Some Directory.

(** A command that brings no bytes: it fails, or prints nothing. *)
Definition brings_nothing (r : ExecResult Buffer) : Prop :=
  match r with
  | ExecError _ => True
  | ExecOk out => out = []
  end.

(** A command that fails. *)
Definition fails {A : Type} (r : ExecResult A) : Prop :=
  match r with
  | ExecError _ => True
  | ExecOk _ => False
  end.

End Spec.

(** ** Concrete machines *)

Module Scenarios.
Import Js Os Clipboard.

Definition png_bytes : Buffer := [Byte.x89; Byte.x50; Byte.x4e; Byte.x47].
Definition tiff_bytes : Buffer := [Byte.x49; Byte.x49; Byte.x2a; Byte.x00].

Definition newline : string := String (ascii_of_nat 10) EmptyString.

(** A Windows machine whose script ends as given. *)
Definition windows_env (ended : ExecResult string) (saved : option Buffer)
    (refused : string -> bool) : Windows.Env :=
  {| Windows.tmpdir := "C:\Temp";
     Windows.mkdtemp := Returns "Ab12Cd";
     Windows.randomHex := "00112233445566ff";
     Windows.powershell := ended;
     Windows.powershell_saved := saved;
     Windows.removal_refused := refused |}.

Definition the_temp_dir : string := "C:\Temp\vscode-clipboard-Ab12Cd".
Definition the_temp_file : ManagedTempFile :=
  {| filePath := "C:\Temp\vscode-clipboard-Ab12Cd\clipboard-00112233445566ff.png";
     dirPath := the_temp_dir |}.

(** A shell on which no tool is installed. *)
Definition no_tools : Shell := fun _ => ExecError "command not found".

(** A shell that answers the listed commands and fails on all others. *)
Fixpoint answers (table : list (string * Buffer)) : Shell :=
  fun command =>
    match table with
    | [] => ExecError "command not found"
    | (c, out) :: rest =>
        if String.eqb c command then ExecOk out else answers rest command
    end.

Definition machine (w : Windows.Env) (sh : Shell) : Machine :=
  {| windows := w; exec := sh |}.

(** The script reports success and leaves an empty file. *)
Definition empty_file_env : Windows.Env :=
  windows_env (ExecOk ("success" ++ newline)) (Some []) (fun _ => false).

(** The script saved the image; the system refuses to remove the file. *)
Definition locked_file_env : Windows.Env :=
  windows_env (ExecOk ("success" ++ newline)) (Some png_bytes)
              (fun p => String.eqb p (filePath the_temp_file)).

(** The script saved the image and nothing is refused. *)
Definition image_env : Windows.Env :=
  windows_env (ExecOk ("success" ++ newline)) (Some png_bytes) (fun _ => false).

(** The script finds no image. *)
Definition no_image_env : Windows.Env :=
  windows_env (ExecOk ("no_image" ++ newline)) None (fun _ => false).

(** The script reports success, and no file was written. *)
Definition missing_file_env : Windows.Env :=
  windows_env (ExecOk ("success" ++ newline)) None (fun _ => false).

(** PowerShell cannot be started. *)
Definition no_powershell_env : Windows.Env :=
  windows_env (ExecError "spawn powershell ENOENT") None (fun _ => false).

(** A macOS clipboard that offers a TIFF representation only. *)
Definition tiff_only : Shell :=
  answers [ ("pbpaste -Prefer png", []);
            ("pbpaste -Prefer public.png", []);
            ("pbpaste -Prefer public.tiff", tiff_bytes);
            ("pbpaste -Prefer public.jpeg", []) ].

(** The same clipboard for the 1.0.1 revision, whose AppleScript step fails. *)
Definition tiff_only_revised : MacOSRevised.Env :=
  {| MacOSRevised.osascript := ExecOk ("ERROR:sips failed" ++ newline);
     MacOSRevised.osascript_wrote := None;
     MacOSRevised.shell := tiff_only;
     MacOSRevised.removal_refused := fun _ => false |}.

(** Only [wl-paste] is installed. *)
Definition wayland_only : Shell :=
  answers [ ("wl-paste -t image/png", png_bytes) ].

(** A raw setting of half a day. *)
Definition half_day : Configuration.WorkspaceConfiguration :=
  fun key =>
    if String.eqb key "retentionDays" then VNumber (Finite (1 # 2)) else VUndefined.

(** A workspace whose images directory holds the given entries. *)
Definition workspace_with (files : list FileManager.DirEntry)
  : FileManager.Workspace :=
  {| FileManager.workspaceFolders := ["/home/dev/project"];
     FileManager.readDirectory := fun _ => Some files;
     FileManager.delete_rejects := fun _ => false |}.

Definition images_dir : string :=
  "/home/dev/project/.claude/claude-code-chat-images".

Definition cached : FileManager.State :=
  {| FileManager.cachedWorkspaceFolder := Some "/home/dev/project";
     FileManager.cachedImagesDir := Some images_dir |}.

(** A moment in November 2023, in milliseconds. *)
Definition a_moment : Z := 1700000000000.

Definition mixed_listing : list FileManager.DirEntry :=
  [ ("image_1000.png", FileManager.FileType_File);
    (".gitignore", FileManager.FileType_File);
    ("notes.txt", FileManager.FileType_File);
    ("image_5.png", FileManager.FileType_Directory) ].

(** A macOS machine of the 1.0.1 revision whose AppleScript step wrote the
    clipboard image to a temporary file and printed its path. *)
Definition applescript_env : MacOSRevised.Env :=
  {| MacOSRevised.osascript :=
       ExecOk ("/private/tmp/clipboard_image_4711.png" ++ newline);
     MacOSRevised.osascript_wrote :=
       Some ("/private/tmp/clipboard_image_4711.png", png_bytes);
     MacOSRevised.shell := no_tools;
     MacOSRevised.removal_refused := fun _ => false |}.

(** A host that turns nothing down, on an empty images directory. *)
Definition plain_host : ImageStore.Host :=
  {| ImageStore.workspace := workspace_with [];
     ImageStore.mkdir_rejects := fun _ => false;
     ImageStore.stat_rejects := fun _ => false;
     ImageStore.write_error := fun _ => None |}.

Definition gitignore_path : string :=
  "/home/dev/project/.claude/claude-code-chat-images/.gitignore".

(** A disk on which the images directory has its own [.gitignore]. *)
Definition disk_with_gitignore : disk :=
  {[ gitignore_path := File png_bytes ]}.

(** Services that succeed and keep a journal of the calls they receive. *)
Definition journal_file : Workflow.ImageFile (list string) :=
  {| Workflow.file_path := "/home/dev/project/.claude/claude-code-chat-images/image_1.png";
     Workflow.file_dispose := fun s => (s ++ ["dispose"])%list |}.

Definition journal_deps (found : Promise ClipboardResult)
  : Workflow.Dependencies (list string) :=
  {| Workflow.clipboard_getImage := fun s => (found, (s ++ ["getImage"])%list);
     Workflow.clipboard_clear := fun s => (Resolved tt, (s ++ ["clear"])%list);
     Workflow.fileManager_cleanupOldImages :=
       fun _ s => (Resolved tt, (s ++ ["cleanupOldImages"])%list);
     Workflow.fileManager_createImageFile :=
       fun _ _ s => (Resolved journal_file, (s ++ ["createImageFile"])%list);
     Workflow.config_getRetentionDays := fun _ => of_Z 30;
     Workflow.config_getClearClipboardAfterUpload := fun _ => VBoolean true |}.

(** The same services, with the clipboard kept after the upload. *)
Definition journal_deps_keeping (found : Promise ClipboardResult)
  : Workflow.Dependencies (list string) :=
  {| Workflow.clipboard_getImage := Workflow.clipboard_getImage (journal_deps found);
     Workflow.clipboard_clear := Workflow.clipboard_clear (journal_deps found);
     Workflow.fileManager_cleanupOldImages :=
       Workflow.fileManager_cleanupOldImages (journal_deps found);
     Workflow.fileManager_createImageFile :=
       Workflow.fileManager_createImageFile (journal_deps found);
     Workflow.config_getRetentionDays := fun _ => of_Z 30;
     Workflow.config_getClearClipboardAfterUpload := fun _ => VBoolean false |}.

Definition a_png : ImageData := {| buffer := png_bytes; format := "png" |}.

Definition local_window : Workflow.Window :=
  {| Workflow.remoteName := None;
     Workflow.activeTextEditor := Some (Resolved true);
     Workflow.activeTerminal := Some (Returns tt) |}.

Definition remote_window (editor : option (Promise bool)) : Workflow.Window :=
  {| Workflow.remoteName := Some "ssh-remote";
     Workflow.activeTextEditor := editor;
     Workflow.activeTerminal := Some (Returns tt) |}.

Definition start : Workflow.World (list string) :=
  {| Workflow.services := []; Workflow.shown := [] |}.

End Scenarios.

(** * Properties *)

#[local] Arguments String.append !_ _ /.

(** ** Numbers *)

Section NumberFacts.
Import Js.

Lemma of_Z_inj a b : of_Z a = of_Z b -> a = b.
Proof. unfold of_Z, inject_Z. intros H. injection H. auto. Qed.

Lemma Qle_bool_inject a b : Qle_bool (inject_Z a) (inject_Z b) = (a <=? b).
Proof. unfold Qle_bool, inject_Z. simpl. rewrite !Z.mul_1_r. reflexivity. Qed.

Lemma lt_of_Z a b : lt (of_Z a) (of_Z b) = (a <? b).
Proof.
  unfold lt, of_Z. rewrite Qle_bool_inject, Z.ltb_antisym. reflexivity.
Qed.

Lemma gt_zero_Finite q : gt (Finite q) (of_Z 0) = true <-> (0 < q)%Q.
Proof.
  unfold gt, lt, of_Z. change (inject_Z 0) with 0%Q.
  rewrite negb_true_iff. split; intros H.
  - apply Qnot_le_lt. intros Hle. apply Qle_bool_iff in Hle. congruence.
  - apply not_true_is_false. intros Hle. apply Qle_bool_iff in Hle.
    exact (Qlt_not_le _ _ H Hle).
Qed.

Lemma le_Finite q z : le (Finite q) (of_Z z) = true <-> (q <= inject_Z z)%Q.
Proof. unfold le, of_Z. apply Qle_bool_iff. Qed.

End NumberFacts.

(** ** Configuration *)

Section ConfigurationFacts.
Import Js Configuration.

Lemma validateRetentionDays_number q :
  (0 < q)%Q -> (q <= 365)%Q ->
  validateRetentionDays (VNumber (Finite q)) = of_Z (Qfloor q).
Proof.
  intros Hpos Hle. unfold validateRetentionDays.
  assert (G : gt (Finite q) (of_Z 0) = true) by (apply gt_zero_Finite; exact Hpos).
  assert (L : le (Finite q) (of_Z 365) = true) by (apply le_Finite; exact Hle).
  rewrite G, L. reflexivity.
Qed.

(** Whatever the raw setting, the result is an integer from 0 to 365. *)
Lemma validateRetentionDays_range v : integer_in 0 365 (validateRetentionDays v).
Proof.
  assert (D : integer_in 0 365 defaults_retentionDays).
  { exists 30. split; [reflexivity | lia]. }
  destruct v as [ | | b | n | s | ]; try exact D.
  destruct n as [ | [ | ] | q ]; try exact D.
  unfold validateRetentionDays.
  destruct (gt (Finite q) (of_Z 0)) eqn:G; [ | exact D].
  destruct (le (Finite q) (of_Z 365)) eqn:L; [ | exact D].
  cbn [andb Math_floor].
  apply gt_zero_Finite in G. apply le_Finite in L.
  exists (Qfloor q). split; [reflexivity | ]. split.
  - rewrite <- (Qfloor_Z 0). apply Qfloor_resp_le, Qlt_le_weak. exact G.
  - rewrite <- (Qfloor_Z 365). apply Qfloor_resp_le. exact L.
Qed.

(** From 1 upwards the guard and the floor agree with the intended range. *)
Lemma validateRetentionDays_from_one q :
  (1 <= q)%Q -> (q <= 365)%Q ->
  integer_in 1 365 (validateRetentionDays (VNumber (Finite q))).
Proof.
  intros Lo Hi. rewrite validateRetentionDays_number.
  - exists (Qfloor q). split; [reflexivity | ]. split.
    + rewrite <- (Qfloor_Z 1). apply Qfloor_resp_le. exact Lo.
    + rewrite <- (Qfloor_Z 365). apply Qfloor_resp_le. exact Hi.
  - apply Qlt_le_trans with (y := 1%Q); [reflexivity | exact Lo].
  - exact Hi.
Qed.

(** Zero, negative numbers, numbers above 365 and [NaN] give the default. *)
Lemma validateRetentionDays_out_of_range n :
  gt n (of_Z 0) && le n (of_Z 365) = false ->
  validateRetentionDays (VNumber n) = of_Z 30.
Proof. intros H. unfold validateRetentionDays. rewrite H. reflexivity. Qed.

(** Anything that is not a number gives the default. *)
Lemma validateRetentionDays_not_a_number v :
  (forall n, v <> VNumber n) -> validateRetentionDays v = of_Z 30.
Proof. intros H. destruct v; try reflexivity. exfalso. exact (H n eq_refl). Qed.

Example validateRetentionDays_zero :
  validateRetentionDays (VNumber (of_Z 0)) = of_Z 30.
Proof. reflexivity. Qed.

(** The validator of the same file rejects what [validateRetentionDays]
    lets through. *)
Example isValidRetentionDays_half :
  isValidRetentionDays (Finite (1 # 2)) = false.
Proof. reflexivity. Qed.

End ConfigurationFacts.

(** ** Retention cleanup *)

Section FileNameFacts.
Import Js FileManager.

Lemma strip_prefix_app p r : strip_prefix p (p ++ r) = Some r.
Proof.
  induction p as [ | a p IH]; simpl; [reflexivity | ].
  rewrite Ascii.eqb_refl. exact IH.
Qed.

Lemma strip_prefix_inv p s r : strip_prefix p s = Some r -> s = p ++ r.
Proof.
  revert s. induction p as [ | a p IH]; intros s H; simpl in *.
  - inversion H. reflexivity.
  - destruct s as [ | b s]; [discriminate | ].
    destruct (Ascii.eqb a b) eqn:E; [ | discriminate].
    apply Ascii.eqb_eq in E. subst b. simpl. f_equal. apply IH. exact H.
Qed.

Lemma span_digits_inv s ds tl :
  span_digits s = (ds, tl) -> s = ds ++ tl /\ all_digits ds = true /\ stops tl.
Proof.
  revert ds tl. induction s as [ | c s IH]; intros ds tl H; simpl in H.
  - inversion H; subst. simpl. auto.
  - destruct (is_digit c) eqn:D.
    + destruct (span_digits s) as [ds' tl'] eqn:E. inversion H; subst.
      destruct (IH ds' tl eq_refl) as (-> & A & S).
      simpl. rewrite D, A. auto.
    + inversion H; subst. simpl. auto.
Qed.

Lemma span_digits_app ds tl :
  all_digits ds = true -> stops tl -> span_digits (ds ++ tl) = (ds, tl).
Proof.
  induction ds as [ | c ds IH]; intros A S; simpl in *.
  - destruct tl as [ | c tl]; [reflexivity | ]. simpl in *. rewrite S. reflexivity.
  - apply andb_true_iff in A. destruct A as [D A]. rewrite D, (IH A S). reflexivity.
Qed.

Lemma stops_dot rest : stops (String "." rest).
Proof. reflexivity. Qed.

(** The matcher accepts every name the pattern describes ... *)
Lemma match_image_app ds rest :
  ds <> EmptyString -> all_digits ds = true ->
  match_image ("image_" ++ ds ++ "." ++ rest) = Some ds.
Proof.
  intros N A. unfold match_image. rewrite strip_prefix_app.
  rewrite (span_digits_app ds ("." ++ rest) A (stops_dot rest)).
  destruct ds; [congruence | reflexivity].
Qed.

(** ... and nothing else. *)
Lemma match_image_inv fileName ds :
  match_image fileName = Some ds ->
  ds <> EmptyString /\ all_digits ds = true /\
  exists rest, fileName = "image_" ++ ds ++ "." ++ rest.
Proof.
  unfold match_image. intros H.
  destruct (strip_prefix "image_" fileName) as [r | ] eqn:P; [ | discriminate].
  apply strip_prefix_inv in P.
  destruct (span_digits r) as [run tl] eqn:E.
  apply span_digits_inv in E. destruct E as (-> & A & _).
  destruct run as [ | d run]; [discriminate | ].
  destruct tl as [ | c tl]; [discriminate | ].
  destruct (Ascii.eqb c ".") eqn:C.
  - apply Ascii.eqb_eq in C. subst c. inversion H; subst.
    split; [discriminate | ]. split; [exact A | ]. exists tl. reflexivity.
  - exfalso. revert H C. clear.
    destruct c as [[] [] [] [] [] [] [] []]; simpl; intros; congruence.
Qed.

Lemma all_digits_of_uint d : all_digits (NilEmpty.string_of_uint d) = true.
Proof. induction d; simpl; auto. Qed.

Lemma parse_digits_of_uint_acc d acc :
  parse_digits (Zpos acc) (NilEmpty.string_of_uint d) = Zpos (Pos.of_uint_acc d acc).
Proof.
  revert acc. induction d; intros acc; simpl; [reflexivity | .. ];
    change (is_digit _) with true; cbv iota; cbv [digit_value N_of_ascii N_of_digits];
    rewrite <- IHd; f_equal; lia.
Qed.

Lemma parse_digits_of_uint d :
  parse_digits 0 (NilEmpty.string_of_uint d) = Z.of_N (Pos.of_uint d).
Proof.
  induction d; simpl; [reflexivity | exact IHd | .. ];
    change (is_digit _) with true; cbv iota;
    rewrite <- parse_digits_of_uint_acc; reflexivity.
Qed.

Lemma to_uint_nonnil n : N.to_uint n <> Decimal.Nil.
Proof.
  destruct n as [ | p]; simpl; [discriminate | apply Unsigned.to_uint_nonnil].
Qed.

Lemma decimal_NilEmpty t :
  decimal t = NilEmpty.string_of_uint (N.to_uint (Z.to_N t)).
Proof.
  unfold decimal, NilZero.string_of_uint.
  destruct (N.to_uint (Z.to_N t)) eqn:E; try reflexivity.
  exfalso. exact (to_uint_nonnil _ E).
Qed.

Lemma decimal_digits t : all_digits (decimal t) = true.
Proof. rewrite decimal_NilEmpty. apply all_digits_of_uint. Qed.

Lemma decimal_nonempty t : decimal t <> EmptyString.
Proof.
  rewrite decimal_NilEmpty. pose proof (to_uint_nonnil (Z.to_N t)) as H.
  destruct (N.to_uint (Z.to_N t)); simpl; congruence.
Qed.

(** Reading back the digits of a timestamp gives the timestamp. *)
Lemma parse_digits_decimal t : 0 <= t -> parse_digits 0 (decimal t) = t.
Proof.
  intros H. rewrite decimal_NilEmpty, parse_digits_of_uint.
  change (Pos.of_uint ?d) with (N.of_uint d).
  rewrite DecimalN.Unsigned.of_to. lia.
Qed.

Lemma parseInt_digits ds :
  ds <> EmptyString -> all_digits ds = true -> parseInt ds = of_Z (parse_digits 0 ds).
Proof.
  intros N A. destruct ds as [ | c ds]; [congruence | ].
  simpl in A. apply andb_true_iff in A. destruct A as [D _].
  unfold parseInt. rewrite D. reflexivity.
Qed.

Lemma match_image_generated now format :
  match_image (generateFileName now format) = Some (decimal now).
Proof.
  unfold generateFileName. apply match_image_app.
  - apply decimal_nonempty.
  - apply decimal_digits.
Qed.

Example generateFileName_1000 : generateFileName 1000 "png" = "image_1000.png".
Proof. reflexivity. Qed.

Example match_image_examples :
  match_image "image_1000.png" = Some "1000" /\
  match_image "image_.png" = None /\
  match_image "image_12a.png" = None /\
  match_image "image_12" = None /\
  match_image "my_image_12.png" = None /\
  match_image ".gitignore" = None.
Proof. repeat split. Qed.

End FileNameFacts.

Section CleanupFacts.
Import Js FileManager Spec.

Lemma cutoffTime_days now days :
  exists q, cutoffTime now (of_Z days) = Finite q /\
            (q == inject_Z (now - days * 86400000))%Q.
Proof.
  unfold cutoffTime, of_Z, sub, mul. eexists. split; [reflexivity | ].
  unfold Qeq. simpl. lia.
Qed.

(** Against a whole number of days the comparison is the one on integers. *)
Lemma lt_cutoffTime ts now days :
  lt (of_Z ts) (cutoffTime now (of_Z days)) = (ts <? now - days * 86400000).
Proof.
  destruct (cutoffTime_days now days) as (q & -> & E).
  unfold lt, of_Z.
  assert (Qle_bool q (inject_Z ts)
          = Qle_bool (inject_Z (now - days * 86400000)) (inject_Z ts)) as ->.
  { destruct (Qle_bool (inject_Z (now - days * 86400000)) (inject_Z ts)) eqn:B.
    - apply Qle_bool_iff. rewrite E. apply Qle_bool_iff. exact B.
    - apply not_true_is_false. intros C. apply Qle_bool_iff in C. rewrite E in C.
      apply Qle_bool_iff in C. congruence. }
  rewrite Qle_bool_inject, Z.ltb_antisym. reflexivity.
Qed.

Lemma isOldImageFile_generated t format now days :
  0 <= t ->
  isOldImageFile (generateFileName t format) (cutoffTime now (of_Z days))
  = (t <? now - days * 86400000).
Proof.
  intros H. unfold isOldImageFile. rewrite match_image_generated.
  rewrite parseInt_digits by (apply decimal_nonempty || apply decimal_digits).
  rewrite parse_digits_decimal by exact H. apply lt_cutoffTime.
Qed.

Lemma generateFileName_not_gitignore t format :
  String.eqb (generateFileName t format) ".gitignore" = false.
Proof. reflexivity. Qed.

Lemma cleanup_candidate_generated t format now days :
  0 <= t ->
  cleanup_candidate (cutoffTime now (of_Z days)) (generateFileName t format, FileType_File)
  = (t <? now - days * 86400000).
Proof.
  intros H. unfold cleanup_candidate.
  rewrite generateFileName_not_gitignore, isOldImageFile_generated by exact H.
  reflexivity.
Qed.

Lemma isOldImageFile_spec name cutoff :
  isOldImageFile name cutoff = true <-> old_image cutoff name.
Proof.
  unfold isOldImageFile, old_image. split.
  - destruct (match_image name) as [ds | ] eqn:M; [ | discriminate].
    intros L. apply match_image_inv in M. destruct M as (N & A & rest & ->).
    exists ds, rest. auto.
  - intros (ds & rest & -> & N & A & L).
    rewrite (match_image_app ds rest N A). exact L.
Qed.

(** The filter of [cleanupOldImages] selects exactly the deletable entries. *)
Lemma cleanup_candidate_spec cutoff entry :
  cleanup_candidate cutoff entry = true <-> deletable cutoff entry.
Proof.
  destruct entry as [name ty]. unfold cleanup_candidate, deletable. simpl.
  rewrite !andb_true_iff, negb_true_iff, N.eqb_eq, isOldImageFile_spec.
  rewrite <- not_true_iff_false, String.eqb_eq. tauto.
Qed.

Lemma cleanupOldImages_reads ws now r st imagesDir st1 files :
  getImagesDirectory ws st = Some (imagesDir, st1) ->
  readDirectory ws imagesDir = Some files ->
  fst (cleanupOldImages ws now r st)
  = if strict_eq r (of_Z 0) then []
    else map fst (List.filter (cleanup_candidate (cutoffTime now r)) files).
Proof.
  intros G R. unfold cleanupOldImages. rewrite G, R.
  destruct (strict_eq r (of_Z 0)); reflexivity.
Qed.

(** With a retention of zero nothing is ever deleted. *)
Lemma cleanupOldImages_zero ws now r st :
  strict_eq r (of_Z 0) = true -> cleanupOldImages ws now r st = ([], st).
Proof. intros H. unfold cleanupOldImages. rewrite H. reflexivity. Qed.

(** Without a workspace folder, or when the directory cannot be read,
    nothing is deleted. *)
Lemma cleanupOldImages_unreadable ws now r st :
  getImagesDirectory ws st = None \/
  (exists dir st1, getImagesDirectory ws st = Some (dir, st1) /\
                   readDirectory ws dir = None) ->
  fst (cleanupOldImages ws now r st) = [].
Proof.
  unfold cleanupOldImages. intros [G | (dir & st1 & G & R)]; rewrite G; try rewrite R;
    destruct (strict_eq r (of_Z 0)); reflexivity.
Qed.

Lemma unique_name (files : list DirEntry) a b :
  List.NoDup (map fst files) -> In a files -> In b files -> fst a = fst b -> a = b.
Proof.
  induction files as [ | e files IH]; intros N A B E; [contradiction | ].
  simpl in N. inversion N as [ | ? ? Hnot Hrest]; subst.
  destruct A as [-> | A], B as [-> | B]; auto.
  - exfalso. apply Hnot. rewrite E. apply in_map. exact B.
  - exfalso. apply Hnot. rewrite <- E. apply in_map. exact A.
Qed.

Lemma existsb_eqb_In name names :
  existsb (String.eqb name) names = true <-> In name names.
Proof.
  rewrite existsb_exists. split.
  - intros (x & I & E). apply String.eqb_eq in E. subst. exact I.
  - intros I. exists name. split; [exact I | apply String.eqb_refl].
Qed.

(** C10. For every [retentionDays] and every directory listing (names are
    unique in a listing), [cleanupOldImages] asks to delete an entry only if
    it is a plain file, is not named [.gitignore], and has a name of the
    shape [image_<digits>.] whose parsed timestamp is strictly below the
    cutoff; every other entry is still in the directory afterwards. *)
Theorem cleanup_deletes_only_old_images ws now r st imagesDir st1 files entry :
  getImagesDirectory ws st = Some (imagesDir, st1) ->
  readDirectory ws imagesDir = Some files ->
  List.NoDup (map fst files) ->
  In entry files ->
  (In (fst entry) (fst (cleanupOldImages ws now r st)) ->
   deletable (cutoffTime now r) entry) /\
  (~ deletable (cutoffTime now r) entry ->
   In entry (directory_after ws imagesDir (fst (cleanupOldImages ws now r st)) files)).
Proof.
  intros G R N I.
  assert (Only : In (fst entry) (fst (cleanupOldImages ws now r st)) ->
                 deletable (cutoffTime now r) entry).
  { rewrite (cleanupOldImages_reads _ _ _ _ _ _ _ G R).
    destruct (strict_eq r (of_Z 0)); [contradiction | ].
    intros M. apply in_map_iff in M. destruct M as (e & E & F).
    apply filter_In in F. destruct F as [F C].
    rewrite <- (unique_name files e entry N F I E).
    apply cleanup_candidate_spec. exact C. }
  split; [exact Only | ].
  intros ND. unfold directory_after. apply filter_In. split; [exact I | ].
  destruct (existsb (String.eqb (fst entry)) (fst (cleanupOldImages ws now r st))) eqn:X;
    [ | reflexivity].
  exfalso. apply ND, Only. apply existsb_eqb_In. exact X.
Qed.

End CleanupFacts.

Section RetentionScenario.
Import Js FileManager Configuration Spec Scenarios.

(** Every deletable entry is requested, unless the retention is zero. *)
Lemma cleanup_requests_old_images ws now r st imagesDir st1 files entry :
  getImagesDirectory ws st = Some (imagesDir, st1) ->
  readDirectory ws imagesDir = Some files ->
  strict_eq r (of_Z 0) = false ->
  In entry files ->
  deletable (cutoffTime now r) entry ->
  In (fst entry) (fst (cleanupOldImages ws now r st)).
Proof.
  intros G R NZ I D. rewrite (cleanupOldImages_reads _ _ _ _ _ _ _ G R), NZ.
  apply in_map, filter_In. split; [exact I | ].
  apply cleanup_candidate_spec. exact D.
Qed.

Lemma cleanup_deletes_only_old_images_witness :
  (In "image_1000.png" (fst (cleanupOldImages (workspace_with mixed_listing) a_moment
                          (of_Z 30) initial)) ->
   deletable (cutoffTime a_moment (of_Z 30)) ("image_1000.png", FileType_File)) /\
  (~ deletable (cutoffTime a_moment (of_Z 30)) ("image_1000.png", FileType_File) ->
   In ("image_1000.png", FileType_File)
      (directory_after (workspace_with mixed_listing) images_dir
         (fst (cleanupOldImages (workspace_with mixed_listing) a_moment
                 (of_Z 30) initial))
         mixed_listing)).
Proof.
  apply (cleanup_deletes_only_old_images (workspace_with mixed_listing) a_moment
           (of_Z 30) initial images_dir cached mixed_listing ("image_1000.png", FileType_File)).
  - reflexivity.
  - reflexivity.
  - unfold mixed_listing. simpl.
    repeat (constructor; [simpl; intuition discriminate | ]). constructor.
  - unfold mixed_listing. simpl. auto.
Defined.

(** C8. Given a directory that holds [image_1000.png], far older than the
    cutoff, and a fresh [image_<t>.png], a cleanup with [retentionDays = 30]
    deletes the old file only and the fresh one stays; with
    [retentionDays = 0] neither file is deleted. *)
Theorem retention_scenario ws st now fresh imagesDir st1 :
  getImagesDirectory ws st = Some (imagesDir, st1) ->
  readDirectory ws imagesDir = Some (retention_listing fresh) ->
  1000 < now - 30 * 86400000 <= fresh ->
  delete_rejects ws (joinPath imagesDir "image_1000.png") = false ->
  fst (cleanupOldImages ws now (of_Z 30) st) = ["image_1000.png"] /\
  directory_after ws imagesDir (fst (cleanupOldImages ws now (of_Z 30) st))
    (retention_listing fresh) = [(generateFileName fresh "png", FileType_File)] /\
  fst (cleanupOldImages ws now (of_Z 0) st) = [] /\
  directory_after ws imagesDir (fst (cleanupOldImages ws now (of_Z 0) st))
    (retention_listing fresh) = retention_listing fresh.
Proof.
  intros G R Old D.
  rewrite !(cleanupOldImages_reads _ _ _ _ _ _ _ G R).
  change (strict_eq (of_Z 30) (of_Z 0)) with false.
  change (strict_eq (of_Z 0) (of_Z 0)) with true. cbv iota.
  assert (Fresh : String.eqb (generateFileName fresh "png") "image_1000.png" = false).
  { apply not_true_is_false. intros E. apply String.eqb_eq in E.
    pose proof (match_image_generated fresh "png") as M. rewrite E in M.
    change (match_image "image_1000.png") with (Some "1000") in M.
    injection M as M. pose proof (parse_digits_decimal fresh ltac:(lia)) as P.
    rewrite <- M in P. change (parse_digits 0 "1000") with 1000 in P. lia. }
  assert (C30 : List.filter (cleanup_candidate (cutoffTime now (of_Z 30)))
                  (retention_listing fresh)
                = [("image_1000.png", FileType_File)]).
  { unfold retention_listing.
    change "image_1000.png" with (generateFileName 1000 "png").
    cbn [List.filter]. rewrite !cleanup_candidate_generated by lia.
    assert ((1000 <? now - 30 * 86400000) = true) as -> by (apply Z.ltb_lt; lia).
    assert ((fresh <? now - 30 * 86400000) = false) as -> by (apply Z.ltb_ge; lia).
    reflexivity. }
  rewrite C30. cbn [map fst].
  split; [reflexivity | ]. split.
  - unfold directory_after, retention_listing. cbn [List.filter fst existsb].
    rewrite D, Fresh. reflexivity.
  - split; [reflexivity | ].
    unfold directory_after, retention_listing. reflexivity.
Qed.

Lemma retention_scenario_witness :
  fst (cleanupOldImages (workspace_with (retention_listing a_moment)) a_moment
         (of_Z 30) initial) = ["image_1000.png"] /\
  directory_after (workspace_with (retention_listing a_moment)) images_dir
    (fst (cleanupOldImages (workspace_with (retention_listing a_moment)) a_moment
            (of_Z 30) initial))
    (retention_listing a_moment) = [(generateFileName a_moment "png", FileType_File)] /\
  fst (cleanupOldImages (workspace_with (retention_listing a_moment)) a_moment
         (of_Z 0) initial) = [] /\
  directory_after (workspace_with (retention_listing a_moment)) images_dir
    (fst (cleanupOldImages (workspace_with (retention_listing a_moment)) a_moment
            (of_Z 0) initial))
    (retention_listing a_moment) = retention_listing a_moment.
Proof.
  apply (retention_scenario (workspace_with (retention_listing a_moment)) initial
           a_moment a_moment images_dir cached).
  - reflexivity.
  - reflexivity.
  - unfold a_moment. lia.
  - reflexivity.
Defined.

(** C9. [getRetentionDays] is meant to return an integer from 1 to 365 and
    never 0. For the raw setting 0.5 the guard [value > 0] passes and
    [Math.floor] gives 0: the result is 0, outside 1..365, and the cleanup
    that receives it deletes nothing. *)
Theorem getRetentionDays_fraction_is_zero :
  getRetentionDays half_day = of_Z 0 /\
  ~ integer_in 1 365 (getRetentionDays half_day) /\
  forall ws now st,
    cleanupOldImages ws now (getRetentionDays half_day) st = ([], st).
Proof.
  assert (E : getRetentionDays half_day = of_Z 0) by reflexivity.
  split; [exact E | ]. split.
  - rewrite E. intros (z & Hz & Range). apply of_Z_inj in Hz. lia.
  - intros ws now st. rewrite E. apply cleanupOldImages_zero. reflexivity.
Qed.

End RetentionScenario.

(** ** Clipboard acquisition *)

Section ResultFacts.
Import Os Clipboard Spec Scenarios.

Lemma nonempty_length (b : Buffer) : nonempty b = true -> (0 < length b)%nat.
Proof. destruct b; simpl; [discriminate | lia]. Qed.

Lemma png_supported : supported_format "png".
Proof. left. reflexivity. Qed.

Lemma Linux_try_commands_well_formed exec cmds :
  well_formed (Linux.try_commands exec cmds).
Proof.
  induction cmds as [ | c cmds IH]; simpl; [exact I | ].
  destruct (exec c) as [e | out]; [exact IH | ].
  destruct (nonempty out) eqn:N; [ | exact IH].
  simpl. split; [apply nonempty_length; exact N | apply png_supported].
Qed.

Lemma MacOS_getImage_well_formed exec r :
  MacOS.getImage exec = Resolved r -> well_formed r.
Proof.
  unfold MacOS.getImage. destruct (exec _) as [e | out].
  - intros [= <-]. exact I.
  - destruct (nonempty out) eqn:N; intros [= <-]; [ | exact I].
    simpl. split; [apply nonempty_length; exact N | apply png_supported].
Qed.

(** On Linux and on macOS a result carries bytes and the format [png]. *)
Lemma getImage_well_formed service m fs r :
  service <> WindowsService ->
  fst (getImage service m fs) = Resolved r -> well_formed r.
Proof.
  destruct service; intros NW; [congruence | | ]; unfold getImage; cbn [fst].
  - unfold Linux.getImage. intros [= <-].
    exact (Linux_try_commands_well_formed (exec m) Linux.commands).
  - apply MacOS_getImage_well_formed.
Qed.

Lemma MacOSRevised_try_formats_well_formed env fmts :
  (forall uti fmt, In (uti, fmt) fmts -> supported_format fmt) ->
  well_formed (MacOSRevised.try_formats env fmts).
Proof.
  induction fmts as [ | [uti fmt] fmts IH]; intros S; simpl; [exact I | ].
  assert (IH' : well_formed (MacOSRevised.try_formats env fmts)).
  { apply IH. intros u f H. apply (S u f). right. exact H. }
  destruct (MacOSRevised.getImageViaPbpaste env uti) as [e | out]; [exact IH' | ].
  destruct (nonempty out) eqn:N; [ | exact IH'].
  simpl. split; [apply nonempty_length; exact N | ].
  apply (S uti fmt). left. reflexivity.
Qed.

Lemma MacOSRevised_formats_supported uti fmt :
  In (uti, fmt) MacOSRevised.formats -> supported_format fmt.
Proof.
  unfold MacOSRevised.formats, supported_format. simpl.
  intros [H | [H | [H | []]]]; inversion H; auto.
Qed.

(** The same holds of the 1.0.1 revision, with its three formats. *)
Lemma MacOSRevised_getImage_well_formed env fs r :
  fst (MacOSRevised.getImage env fs) = Resolved r -> well_formed r.
Proof.
  unfold MacOSRevised.getImage.
  pose proof (MacOSRevised_try_formats_well_formed env _ MacOSRevised_formats_supported) as F.
  destruct (MacOSRevised.getImageViaAppleScript env fs) as [[out | e] fs1]; simpl.
  - destruct (nonempty out) eqn:N; simpl; intros [= <-]; [ | exact F].
    simpl. split; [apply nonempty_length; exact N | apply png_supported].
  - intros [= <-]. exact F.
Qed.

(** On Windows the result has format [png] and holds whatever the temporary
    file holds; its length is not looked at. *)
Lemma Windows_getImage_image env fs image :
  fst (Windows.getImage env fs) = Resolved (Some image) ->
  format image = "png" /\
  exists tempFile fs1,
    Windows.createTempFile env fs = Returns (tempFile, fs1) /\
    readFileSync (Windows.after_script env (getPath tempFile) fs1) (getPath tempFile)
    = Some (buffer image).
Proof.
  unfold Windows.getImage.
  destruct (Windows.createTempFile env fs) as [e | [tempFile fs1]]; [discriminate | ].
  unfold Windows.acquire, Windows.executeClipboardCommand.
  destruct (Windows.powershell env) as [e | stdout]; [discriminate | ].
  destruct (negb _ || negb _); [discriminate | ].
  destruct (readFileSync _ _) as [content | ] eqn:R; [ | discriminate].
  simpl. intros [= <-]. simpl. split; [reflexivity | ].
  exists tempFile, fs1. split; [reflexivity | exact R].
Qed.

(** C1. A non-null result of [getImage] is to carry a buffer of length
    greater than 0 and one of the formats png, tiff, jpeg. The Linux and
    macOS variants test [buffer.length > 0]; the Windows variant does not:
    when the script reports success and the temporary file is empty,
    [getImage] resolves to an image whose buffer has length 0. *)
Theorem windows_getImage_empty_buffer :
  fst (getImage WindowsService (machine empty_file_env no_tools) ∅)
  = Resolved (Some {| buffer := []; format := "png" |}) /\
  ~ well_formed (Some {| buffer := []; format := "png" |}).
Proof.
  split; [vm_compute; reflexivity | ].
  intros [L _]. simpl in L. lia.
Qed.

(** C2. On macOS [getImage] is to fall back from its first strategy to the
    content types PNG, TIFF, JPEG in order, so that a clipboard with nothing
    for PNG and bytes for TIFF never gives null. [MacOSClipboardService] in
    [src/services/clipboard.ts] asks for PNG once and has no fallback: on
    such a clipboard it resolves to null. *)
Theorem macos_tiff_only_resolves_null :
  tiff_only "pbpaste -Prefer png" = ExecOk [] /\
  tiff_only "pbpaste -Prefer public.tiff" = ExecOk tiff_bytes /\
  fst (getImage MacOSService (machine image_env tiff_only) ∅) = Resolved None.
Proof. repeat split. Qed.

End ResultFacts.

Section FallbackFacts.
Import Os Clipboard Spec Scenarios.

(** In the 1.0.1 revision a clipboard that answers the TIFF request with
    bytes always yields an image, tagged [png] (first strategy, or the PNG
    request) or [tiff]. *)
Lemma MacOSRevised_tiff_fallback env fs out :
  MacOSRevised.shell env "pbpaste -Prefer public.tiff" = ExecOk out ->
  nonempty out = true ->
  exists image,
    fst (MacOSRevised.getImage env fs) = Resolved (Some image) /\
    (format image = "png" \/ format image = "tiff").
Proof.
  intros T N.
  assert (F : exists image,
             MacOSRevised.try_formats env MacOSRevised.formats = Some image /\
             (format image = "png" \/ format image = "tiff")).
  { unfold MacOSRevised.formats, MacOSRevised.try_formats, MacOSRevised.getImageViaPbpaste.
    change ("pbpaste -Prefer " ++ "public.tiff") with "pbpaste -Prefer public.tiff".
    change ("pbpaste -Prefer " ++ "public.png") with "pbpaste -Prefer public.png".
    rewrite T, N.
    destruct (MacOSRevised.shell env "pbpaste -Prefer public.png") as [e | png].
    - eexists. split; [reflexivity | right; reflexivity].
    - destruct (nonempty png); eexists; (split; [reflexivity | ]); simpl; auto. }
  destruct F as (image & F & Fmt).
  unfold MacOSRevised.getImage.
  destruct (MacOSRevised.getImageViaAppleScript env fs) as [[buf | e] fs1].
  - destruct (nonempty buf); cbn [fst].
    + eexists. split; [reflexivity | left; reflexivity].
    + exists image. rewrite F. auto.
  - cbn [fst]. exists image. rewrite F. auto.
Qed.

Example MacOSRevised_tiff_only :
  fst (MacOSRevised.getImage tiff_only_revised ∅)
  = Resolved (Some {| buffer := tiff_bytes; format := "tiff" |}).
Proof. vm_compute. reflexivity. Qed.

(** When every strategy of the revision fails, the call still resolves. *)
Lemma MacOSRevised_failures_swallowed env fs :
  (exists e, MacOSRevised.osascript env = ExecError e) ->
  (forall command, exists e, MacOSRevised.shell env command = ExecError e) ->
  fst (MacOSRevised.getImage env fs) = Resolved None.
Proof.
  intros [e A] S. unfold MacOSRevised.getImage, MacOSRevised.getImageViaAppleScript.
  rewrite A. simpl.
  unfold MacOSRevised.formats, MacOSRevised.try_formats, MacOSRevised.getImageViaPbpaste.
  repeat match goal with
         | |- context [MacOSRevised.shell env ?c] =>
             let e := fresh "e" in let H := fresh "H" in
             destruct (S c) as [e H]; rewrite H
         end.
  reflexivity.
Qed.

(** With no image on it, the revision resolves to null as well: the first
    strategy brings no bytes and every [pbpaste] prints nothing. *)
Lemma MacOSRevised_no_image env fs :
  (forall b, fst (MacOSRevised.getImageViaAppleScript env fs) = Resolved b -> b = []) ->
  (forall command, MacOSRevised.shell env command = ExecOk []) ->
  fst (MacOSRevised.getImage env fs) = Resolved None.
Proof.
  intros A S.
  assert (F : MacOSRevised.try_formats env MacOSRevised.formats = None).
  { unfold MacOSRevised.formats, MacOSRevised.try_formats, MacOSRevised.getImageViaPbpaste.
    rewrite !S. reflexivity. }
  unfold MacOSRevised.getImage.
  destruct (MacOSRevised.getImageViaAppleScript env fs) as [[buf | e] fs1]; cbn [fst] in *.
  - rewrite (A buf eq_refl). cbn [nonempty fst]. rewrite F. reflexivity.
  - rewrite F. reflexivity.
Qed.

End FallbackFacts.

Section FailureFacts.
Import Os Clipboard Spec Scenarios.

Lemma Windows_getImage_rejects env fs e :
  Windows.powershell env = ExecError e ->
  rejected (fst (Windows.getImage env fs)).
Proof.
  intros P. unfold Windows.getImage.
  destruct (Windows.createTempFile env fs) as [e' | [tempFile fs1]].
  - exists e'. reflexivity.
  - unfold Windows.acquire, Windows.executeClipboardCommand. rewrite P.
    exists e. reflexivity.
Qed.

Lemma MacOS_getImage_swallows exec e :
  exec "pbpaste -Prefer png" = ExecError e -> MacOS.getImage exec = Resolved None.
Proof. intros H. unfold MacOS.getImage. rewrite H. reflexivity. Qed.

(** [MacOS.getImage] never rejects. *)
Lemma MacOS_getImage_resolves exec : exists r, MacOS.getImage exec = Resolved r.
Proof.
  unfold MacOS.getImage. destruct (exec _) as [e | out]; [eauto | ].
  destruct (nonempty out); eauto.
Qed.

(** C3, as amended. On Windows a failure of the helper process (it cannot be
    spawned, times out, or exits with an error) makes [getImage] reject, and
    never resolve to null. On macOS [getImage] catches the failure of its
    helper command and resolves to null. *)
Theorem helper_failure_outcome m fs :
  (helper_failed WindowsService m ->
   rejected (fst (getImage WindowsService m fs))) /\
  (helper_failed MacOSService m ->
   fst (getImage MacOSService m fs) = Resolved None).
Proof.
  split.
  - intros [e H]. exact (Windows_getImage_rejects _ fs e H).
  - intros [e H]. exact (MacOS_getImage_swallows _ e H).
Qed.

Lemma helper_failure_outcome_witness :
  rejected (fst (getImage WindowsService (machine no_powershell_env no_tools) ∅)) /\
  fst (getImage MacOSService (machine no_powershell_env no_tools) ∅) = Resolved None.
Proof.
  destruct (helper_failure_outcome (machine no_powershell_env no_tools) ∅) as [W M].
  split.
  - apply W. exists "spawn powershell ENOENT". reflexivity.
  - apply M. exists "command not found". reflexivity.
Defined.

(** C3, as stated, fails on macOS: with [pbpaste] missing, [getImage]
    resolves to null instead of rejecting. *)
Lemma macos_failure_not_surfaced :
  helper_failed MacOSService (machine no_powershell_env no_tools) /\
  fst (getImage MacOSService (machine no_powershell_env no_tools) ∅) = Resolved None /\
  ~ rejected (fst (getImage MacOSService (machine no_powershell_env no_tools) ∅)).
Proof.
  split; [exists "command not found"; reflexivity | ].
  split; [reflexivity | ].
  intros [e H]. vm_compute in H. discriminate.
Qed.

End FailureFacts.

Section AbsenceFacts.
Import Os Clipboard Spec Scenarios.

(** C4. For every platform variant, when the clipboard holds no image (the
    helper tools run, and report no image or print nothing), [getImage]
    resolves to null and does not reject. *)
Theorem no_image_resolves_null service m fs :
  no_image service m fs -> fst (getImage service m fs) = Resolved None.
Proof.
  destruct service; simpl.
  - intros (tempFile & fs1 & stdout & T & P & S).
    unfold Windows.getImage. rewrite T.
    unfold Windows.acquire, Windows.executeClipboardCommand. rewrite P, S.
    reflexivity.
  - intros H. unfold Linux.getImage, Linux.commands, Linux.try_commands.
    rewrite !H by (simpl; auto). reflexivity.
  - intros H. unfold MacOS.getImage. rewrite H. reflexivity.
Qed.

Lemma no_image_resolves_null_witness :
  fst (getImage WindowsService (machine no_image_env no_tools) ∅) = Resolved None.
Proof.
  apply (no_image_resolves_null WindowsService (machine no_image_env no_tools) ∅).
  exists the_temp_file, {[ the_temp_dir := Directory ]}, ("no_image" ++ newline).
  split; [vm_compute; reflexivity | ].
  split; [reflexivity | vm_compute; reflexivity].
Defined.

(** On Linux the same holds when a tool is missing and the other prints
    nothing: a failed command is skipped. *)
Lemma Linux_getImage_resolves exec : exists r, Linux.getImage exec = Resolved r.
Proof. unfold Linux.getImage. eauto. Qed.

(** C5. On Windows, if the output of the script starts with the success
    marker and the temporary file is not on disk when it is looked for,
    [getImage] resolves to null and does not reject. *)
Theorem success_marker_without_file env fs tempFile fs1 stdout :
  Windows.createTempFile env fs = Returns (tempFile, fs1) ->
  Windows.powershell env = ExecOk stdout ->
  startsWith (trim stdout) "success" = true ->
  existsSync (Windows.after_script env (getPath tempFile) fs1) (getPath tempFile) = false ->
  fst (Windows.getImage env fs) = Resolved None.
Proof.
  intros T P S X. unfold Windows.getImage. rewrite T.
  unfold Windows.acquire, Windows.executeClipboardCommand. rewrite P, S, X.
  reflexivity.
Qed.

Lemma success_marker_without_file_witness :
  fst (Windows.getImage missing_file_env ∅) = Resolved None.
Proof.
  apply (success_marker_without_file missing_file_env ∅ the_temp_file
           {[ the_temp_dir := Directory ]} ("success" ++ newline)).
  - vm_compute. reflexivity.
  - reflexivity.
  - vm_compute. reflexivity.
  - vm_compute. reflexivity.
Defined.

(** C6. On Linux, if [xclip] fails with a process error and [wl-paste]
    succeeds with non-empty output, [getImage] returns exactly the bytes
    [wl-paste] printed, with format [png]. *)
Theorem linux_second_tool m fs e out :
  exec m "xclip -selection clipboard -t image/png -o" = ExecError e ->
  exec m "wl-paste -t image/png" = ExecOk out ->
  (0 < length out)%nat ->
  fst (getImage LinuxService m fs)
  = Resolved (Some {| buffer := out; format := "png" |}).
Proof.
  intros X W N. unfold getImage, Linux.getImage, Linux.commands, Linux.try_commands.
  rewrite X, W. destruct out; [simpl in N; lia | reflexivity].
Qed.

Lemma linux_second_tool_witness :
  fst (getImage LinuxService (machine image_env wayland_only) ∅)
  = Resolved (Some {| buffer := png_bytes; format := "png" |}).
Proof.
  apply (linux_second_tool (machine image_env wayland_only) ∅ "command not found").
  - reflexivity.
  - reflexivity.
  - simpl. lia.
Defined.

End AbsenceFacts.

Section TempFileFacts.
Import Os Clipboard Spec Scenarios.

Lemma append_neq d s : s <> EmptyString -> d ++ s <> d.
Proof.
  intros N. induction d as [ | a d IH]; simpl.
  - exact N.
  - intros E. injection E as E. exact (IH E).
Qed.

Lemma path_join_neq dir name : path_join dir name <> dir.
Proof. unfold path_join. apply append_neq. discriminate. Qed.

Lemma createTempFile_inv env fs tempFile fs1 :
  Windows.createTempFile env fs = Returns (tempFile, fs1) ->
  fs !! dirPath tempFile = None /\
  fs1 = <[dirPath tempFile := Directory]> fs /\
  exists name, filePath tempFile = path_join (dirPath tempFile) name.
Proof.
  unfold Windows.createTempFile, Windows.mkdtempSync.
  destruct (Windows.mkdtemp env) as [e | unique]; [discriminate | ].
  unfold existsSync.
  destruct (fs !! _) eqn:L; [discriminate | ].
  intros [= <- <-]. simpl. split; [exact L | ]. split; [reflexivity | ].
  eexists. reflexivity.
Qed.

(** The body of the [try] changes the disk only through the script. *)
Lemma acquire_disk env tempFile fs :
  snd (Windows.acquire env tempFile fs) = Windows.after_script env (getPath tempFile) fs.
Proof.
  unfold Windows.acquire, Windows.executeClipboardCommand.
  destruct (Windows.powershell env) as [e | stdout]; [reflexivity | ].
  destruct (negb _ || negb _); [reflexivity | ].
  destruct (readFileSync _ _); reflexivity.
Qed.

(** [dispose] is reached on every path that created the directory, and the
    outcome of the call is the outcome of the [try] body. *)
Lemma getImage_finally env fs tempFile fs1 :
  Windows.createTempFile env fs = Returns (tempFile, fs1) ->
  Windows.getImage env fs
  = (fst (Windows.acquire env tempFile fs1),
     dispose (Windows.removal_refused env) tempFile
       (Windows.after_script env (getPath tempFile) fs1)).
Proof.
  intros T. unfold Windows.getImage. rewrite T.
  rewrite <- acquire_disk.
  destruct (Windows.acquire env tempFile fs1) as [outcome fs2]. reflexivity.
Qed.

Lemma dispose_removes refused t (fs : disk) :
  refused (filePath t) = false ->
  refused (dirPath t) = false ->
  filePath t <> dirPath t ->
  fs !! dirPath t = Some Directory ->
  (fs !! filePath t = None \/ exists content, fs !! filePath t = Some (File content)) ->
  no_artifact t (dispose refused t fs).
Proof.
  intros RF RD Ne D F. unfold dispose, no_artifact, existsSync, unlinkSync, rmdirSync.
  destruct F as [F | [content F]]; rewrite F.
  - rewrite D, RD. rewrite lookup_delete_eq, lookup_delete_ne, F by congruence. auto.
  - rewrite RF. rewrite lookup_delete_ne, D, RD by exact Ne.
    rewrite lookup_delete_eq, lookup_delete_ne, lookup_delete_eq by congruence. auto.
Qed.

Lemma consistent_empty : consistent ∅.
Proof. intros dir name [n H]. rewrite lookup_empty in H. discriminate. Qed.

(** C7, as amended. On Windows every execution of [getImage] that created
    its temporary directory, whether it resolves with an image, resolves
    with null, or rejects, disposes of the temporary file before it returns:
    when the system refuses neither removal, neither the file nor its
    directory is on disk after the call. *)
Theorem temp_file_removed env fs tempFile fs1 :
  consistent fs ->
  Windows.createTempFile env fs = Returns (tempFile, fs1) ->
  Windows.removal_refused env (filePath tempFile) = false ->
  Windows.removal_refused env (dirPath tempFile) = false ->
  no_artifact tempFile (snd (Windows.getImage env fs)).
Proof.
  intros C T RF RD. rewrite (getImage_finally _ _ _ _ T). cbn [snd].
  destruct (createTempFile_inv _ _ _ _ T) as (Fresh & -> & name & P).
  assert (Ne : filePath tempFile <> dirPath tempFile).
  { rewrite P. apply path_join_neq. }
  assert (NoFile : fs !! filePath tempFile = None).
  { destruct (fs !! filePath tempFile) as [n | ] eqn:L; [ | reflexivity].
    exfalso. assert (S : is_Some (fs !! path_join (dirPath tempFile) name)).
    { rewrite <- P, L. eauto. }
    apply C in S. congruence. }
  apply dispose_removes; try assumption.
  - unfold Windows.after_script, getPath.
    destruct (Windows.powershell_saved env).
    + rewrite lookup_insert_ne by exact Ne. apply lookup_insert_eq.
    + apply lookup_insert_eq.
  - unfold Windows.after_script, getPath.
    destruct (Windows.powershell_saved env) as [content | ].
    + right. exists content. apply lookup_insert_eq.
    + left. rewrite lookup_insert_ne by congruence. exact NoFile.
Qed.

Lemma temp_file_removed_witness :
  no_artifact the_temp_file (snd (Windows.getImage image_env ∅)).
Proof.
  apply (temp_file_removed image_env ∅ the_temp_file {[ the_temp_dir := Directory ]}).
  - exact consistent_empty.
  - vm_compute. reflexivity.
  - reflexivity.
  - reflexivity.
Defined.

(** C7, as stated, fails: when the system refuses to remove the temporary
    file, [dispose] swallows the error, and the file and its directory are
    still on disk after [getImage] has resolved with the image. *)
Lemma locked_file_remains :
  Windows.createTempFile locked_file_env ∅
  = Returns (the_temp_file, {[ the_temp_dir := Directory ]}) /\
  fst (Windows.getImage locked_file_env ∅)
  = Resolved (Some {| buffer := png_bytes; format := "png" |}) /\
  existsSync (snd (Windows.getImage locked_file_env ∅)) (filePath the_temp_file) = true /\
  existsSync (snd (Windows.getImage locked_file_env ∅)) (dirPath the_temp_file) = true /\
  ~ no_artifact the_temp_file (snd (Windows.getImage locked_file_env ∅)).
Proof.
  split; [vm_compute; reflexivity | ].
  split; [vm_compute; reflexivity | ].
  split; [vm_compute; reflexivity | ].
  split; [vm_compute; reflexivity | ].
  intros [F _]. vm_compute in F. discriminate.
Qed.

End TempFileFacts.

(** * Further properties of the code *)

(** ** [src/common/result.ts] *)

Section ResultsFacts.
Import Os Results.

Lemma combine_from_success {T E : Type} (results : list (Result T E)) acc values :
  combine_from acc results = Success values <->
  exists ds, results = List.map Success ds /\ values = (acc ++ ds)%list.
Proof.
  revert acc. induction results as [ | [d | e] rest IH]; intros acc; simpl.
  - split.
    + intros [= <-]. exists []. rewrite app_nil_r. auto.
    + intros (ds & H & ->). destruct ds; [ | discriminate]. rewrite app_nil_r. reflexivity.
  - rewrite IH. split.
    + intros (ds & -> & ->). exists (d :: ds). rewrite <- app_assoc. auto.
    + intros (ds & H & ->). destruct ds as [ | d' ds]; [discriminate | ].
      injection H as <- ->. exists ds. rewrite <- app_assoc. auto.
  - split; [discriminate | ].
    intros (ds & H & _). destruct ds; discriminate.
Qed.

Lemma combine_from_failure {T E : Type} (results : list (Result T E)) acc error :
  combine_from acc results = Failure error <->
  exists ds rest, results = (List.map Success ds ++ Failure error :: rest)%list.
Proof.
  revert acc. induction results as [ | [d | e] rest IH]; intros acc; simpl.
  - split; [discriminate | ]. intros (ds & r & H). destruct ds; discriminate.
  - rewrite IH. split.
    + intros (ds & r & ->). exists (d :: ds), r. reflexivity.
    + intros (ds & r & H). destruct ds as [ | d' ds]; [discriminate | ].
      injection H as <- ->. exists ds, r. reflexivity.
  - split.
    + intros [= ->]. exists [], rest. reflexivity.
    + intros (ds & r & H). destruct ds as [ | d' ds]; [ | discriminate].
      injection H as -> _. reflexivity.
Qed.

(** X1. [Result.combine] gives the values of all results, in order, exactly
    when every result is a success; otherwise it gives the first failure of
    the array, whatever follows it. *)
Theorem combine_all_or_first_failure {T E : Type} (results : list (Result T E)) :
  (forall values,
     combine results = Success values <-> results = List.map Success values) /\
  (forall error,
     combine results = Failure error <->
     exists values rest, results = (List.map Success values ++ Failure error :: rest)%list).
Proof.
  split.
  - intros values. unfold combine. rewrite combine_from_success. split.
    + intros (ds & -> & ->). reflexivity.
    + intros ->. exists values. auto.
  - intros error. apply combine_from_failure.
Qed.

(** X2. [Result.flatMap] with [success] obeys the monad laws, [Result.map]
    is [flatMap] followed by [success], and [map] and [mapError] commute. *)
Theorem result_composition {T U V E F : Type} :
  (forall (x : T) (f : T -> Result U E), flatMap (Success x) f = f x) /\
  (forall r : Result T E, flatMap r Success = r) /\
  (forall (r : Result T E) (f : T -> Result U E) (g : U -> Result V E),
     flatMap (flatMap r f) g = flatMap r (fun x => flatMap (f x) g)) /\
  (forall (r : Result T E) (f : T -> U),
     map r f = flatMap r (fun x => Success (f x))) /\
  (forall (r : Result T E) (f : T -> U) (g : E -> F),
     mapError (map r f) g = map (mapError r g) f).
Proof.
  split; [reflexivity | ].
  split; [intros [d | e]; reflexivity | ].
  split; [intros [d | e] f g; reflexivity | ].
  split; [intros [d | e] f; reflexivity | intros [d | e] f g; reflexivity].
Qed.


End ResultsFacts.

(** ** [src/services/configuration.ts]: the other settings *)

Section SettingsFacts.
Import Js Configuration.

Lemma validateKeybinding_isValid v :
  isValidKeybinding (validateKeybinding v) = true.
Proof.
  destruct v; try reflexivity. simpl.
  destruct (isValidKeybinding s) eqn:V; [exact V | reflexivity].
Qed.

(** X4. [getKeybinding] always returns one of the four bindings: a raw
    setting that is one of them is returned as it is, and anything else (a
    string outside the list, or not a string) gives [ctrl+alt+v]. *)
Theorem getKeybinding_valid config :
  In (getKeybinding config) validOptions /\
  (forall s, as_value (config "keybinding") = VString s -> In s validOptions ->
             getKeybinding config = s) /\
  ((forall s, as_value (config "keybinding") = VString s -> ~ In s validOptions) ->
   getKeybinding config = "ctrl+alt+v").
Proof.
  unfold getKeybinding. generalize (as_value (config "keybinding")). intros v.
  assert (Inc : forall s, isValidKeybinding s = true <-> In s validOptions).
  { intros s. unfold isValidKeybinding. rewrite existsb_exists. split.
    - intros (x & I & E). apply String.eqb_eq in E. subst. exact I.
    - intros I. exists s. split; [exact I | apply String.eqb_refl]. }
  split; [ | split].
  - apply Inc, validateKeybinding_isValid.
  - intros s -> V. apply Inc in V. simpl. rewrite V. reflexivity.
  - intros N. destruct v; try reflexivity. simpl.
    destruct (isValidKeybinding s) eqn:V; [ | reflexivity].
    exfalso. apply (N s eq_refl). apply Inc. exact V.
Qed.

Lemma Number_isInteger_of_Z z : Number_isInteger (of_Z z) = true.
Proof.
  unfold Number_isInteger, of_Z. rewrite Qfloor_Z. apply Qeq_bool_iff. reflexivity.
Qed.

Lemma le_of_Z a b : le (of_Z a) (of_Z b) = (a <=? b).
Proof. unfold le, of_Z. apply Qle_bool_inject. Qed.

Lemma isValidTimeout_of_Z z : isValidTimeout (of_Z z) = (1000 <=? z) && (z <=? 60000).
Proof.
  unfold isValidTimeout. rewrite Number_isInteger_of_Z, !le_of_Z. reflexivity.
Qed.

Lemma validateTimeout_range v d :
  integer_in 1000 60000 d -> integer_in 1000 60000 (validateTimeout v d).
Proof.
  intros D. destruct v as [ | | b | n | s | ]; try exact D.
  unfold validateTimeout.
  destruct (le (of_Z 1000) n) eqn:Lo; [ | exact D].
  destruct (le n (of_Z 60000)) eqn:Hi; [ | exact D].
  cbn [andb]. destruct n as [ | [ | ] | q]; try discriminate.
  cbn [Math_floor]. exists (Qfloor q). split; [reflexivity | ].
  unfold le, of_Z in Lo, Hi. apply Qle_bool_iff in Lo, Hi. split.
  - rewrite <- (Qfloor_Z 1000). apply Qfloor_resp_le. exact Lo.
  - rewrite <- (Qfloor_Z 60000). apply Qfloor_resp_le. exact Hi.
Qed.

Lemma isValidTimeout_integer_in n :
  integer_in 1000 60000 n -> isValidTimeout n = true.
Proof.
  intros (z & -> & Range). rewrite isValidTimeout_of_Z.
  apply andb_true_iff. split; apply Z.leb_le; lia.
Qed.

Lemma validateTimeouts_range v :
  integer_in 1000 60000 (clipboard (validateTimeouts v)) /\
  integer_in 1000 60000 (upload (validateTimeouts v)) /\
  integer_in 1000 60000 (cleanup (validateTimeouts v)).
Proof.
  assert (D : forall z, 1000 <= z <= 60000 -> integer_in 1000 60000 (of_Z z)).
  { intros z R. exists z. auto. }
  unfold validateTimeouts. destruct (is_object v); cbn [clipboard upload cleanup defaults_timeouts].
  - repeat split; apply validateTimeout_range, D; lia.
  - repeat split; apply D; lia.
Qed.

(** X5. Whatever the raw [timeouts] setting (any object, any field values,
    or no object at all), each of the three timeouts of [getTimeouts] is an
    integer from 1000 to 60000, and the result passes
    [TypeGuards.isTimeoutConfig]. *)
Theorem getTimeouts_valid config :
  integer_in 1000 60000 (clipboard (getTimeouts config)) /\
  integer_in 1000 60000 (upload (getTimeouts config)) /\
  integer_in 1000 60000 (cleanup (getTimeouts config)) /\
  isTimeoutConfig (getTimeouts config) = true.
Proof.
  unfold getTimeouts.
  destruct (validateTimeouts_range (config "timeouts")) as (C & U & L).
  repeat split; try assumption.
  unfold isTimeoutConfig. rewrite !isValidTimeout_integer_in by assumption. reflexivity.
Qed.

Lemma isValidRetentionDays_validated v :
  isValidRetentionDays (validateRetentionDays v)
  = negb (strict_eq (validateRetentionDays v) (of_Z 0)).
Proof.
  destruct (validateRetentionDays_range v) as (z & -> & Range).
  unfold isValidRetentionDays. rewrite Number_isInteger_of_Z.
  unfold gt. rewrite lt_of_Z, le_of_Z. unfold strict_eq, of_Z.
  assert (Qeq_bool (inject_Z z) (inject_Z 0) = (z =? 0)) as ->.
  { unfold Qeq_bool, inject_Z. simpl. rewrite Z.mul_1_r. reflexivity. }
  destruct (Z.eqb_spec z 0) as [-> | N]; [reflexivity | ].
  cbn [negb andb].
  assert ((0 <? z) = true) as -> by (apply Z.ltb_lt; lia).
  assert ((z <=? 365) = true) as -> by (apply Z.leb_le; lia).
  reflexivity.
Qed.

(** The validated retention is 0 exactly for the fractions below 1. *)
Lemma validateRetentionDays_zero_iff v :
  validateRetentionDays v = of_Z 0 <->
  exists q, v = VNumber (Finite q) /\ (0 < q)%Q /\ (q < 1)%Q.
Proof.
  split.
  - destruct v as [ | | b | n | s | ]; try (intros H; apply of_Z_inj in H; discriminate).
    unfold validateRetentionDays.
    destruct (gt n (of_Z 0)) eqn:G; [ | intros H; apply of_Z_inj in H; discriminate].
    destruct (le n (of_Z 365)) eqn:L; [ | intros H; apply of_Z_inj in H; discriminate].
    cbn [andb]. destruct n as [ | [ | ] | q]; try discriminate.
    cbn [Math_floor]. intros H. apply of_Z_inj in H.
    exists q. split; [reflexivity | ]. split; [apply gt_zero_Finite; exact G | ].
    pose proof (Qlt_floor q) as F. rewrite H in F. exact F.
  - intros (q & -> & Pos & Lt).
    rewrite validateRetentionDays_number.
    + f_equal. pose proof (Qfloor_le q) as Le.
      assert (0 <= Qfloor q).
      { rewrite <- (Qfloor_Z 0). apply Qfloor_resp_le, Qlt_le_weak. exact Pos. }
      assert (Qfloor q < 1).
      { apply Z.lt_nge. intros C. apply (Qlt_not_le _ _ Lt).
        apply Qle_trans with (y := inject_Z (Qfloor q)); [ | exact Le].
        change 1%Q with (inject_Z 1). rewrite <- Zle_Qle. exact C. }
      lia.
    + exact Pos.
    + apply Qlt_le_weak. apply Qlt_trans with (y := 1%Q); [exact Lt | reflexivity].
Qed.

(** X6. The result of [getConfig] fails [TypeGuards.isExtensionConfig]
    exactly when the raw [retentionDays] is a number strictly between 0 and
    1 (it is then floored to 0); for every other raw configuration the
    result passes the guard. *)
Theorem getConfig_guarded config :
  isExtensionConfig (getConfig config) = false <->
  exists q, as_value (config "retentionDays") = VNumber (Finite q) /\
            (0 < q)%Q /\ (q < 1)%Q.
Proof.
  rewrite <- validateRetentionDays_zero_iff.
  unfold isExtensionConfig, getConfig. cbn [keybinding retentionDays timeouts].
  rewrite validateKeybinding_isValid, isValidRetentionDays_validated.
  assert (T : isTimeoutConfig (validateTimeouts (config "timeouts")) = true).
  { destruct (validateTimeouts_range (config "timeouts")) as (C & U & L).
    unfold isTimeoutConfig. rewrite !isValidTimeout_integer_in by assumption. reflexivity. }
  rewrite T, andb_true_r. cbn [andb]. rewrite negb_false_iff.
  destruct (validateRetentionDays_range (as_value (config "retentionDays")))
    as (z & E & Range).
  rewrite E. unfold strict_eq, of_Z.
  assert (Qeq_bool (inject_Z z) (inject_Z 0) = (z =? 0)) as ->.
  { unfold Qeq_bool, inject_Z. simpl. rewrite Z.mul_1_r. reflexivity. }
  rewrite Z.eqb_eq. split; [intros ->; reflexivity | ].
  intros H. injection H. lia.
Qed.

End SettingsFacts.

(** ** [src/services/clipboard.ts]: the disk, the tool order, the probes *)

Section WindowsDiskFacts.
Import Os Clipboard Spec Scenarios.

Lemma unlinkSync_frame refused (fs fs' : disk) q p :
  unlinkSync refused fs q = Some fs' -> p <> q -> fs' !! p = fs !! p.
Proof.
  unfold unlinkSync. destruct (fs !! q) as [[c | ] | ]; try discriminate.
  destruct (refused q); [discriminate | ]. intros [= <-] N.
  apply lookup_delete_ne. congruence.
Qed.

Lemma rmdirSync_frame refused (fs fs' : disk) q p :
  rmdirSync refused fs q = Some fs' -> p <> q -> fs' !! p = fs !! p.
Proof.
  unfold rmdirSync. destruct (fs !! q) as [[c | ] | ]; try discriminate.
  destruct (refused q); [discriminate | ]. intros [= <-] N.
  apply lookup_delete_ne. congruence.
Qed.

Lemma dispose_frame refused t (fs : disk) p :
  p <> filePath t -> p <> dirPath t -> dispose refused t fs !! p = fs !! p.
Proof.
  intros NF ND. unfold dispose.
  assert (U : forall fs1,
             (if existsSync fs (filePath t) then unlinkSync refused fs (filePath t)
              else Some fs) = Some fs1 -> fs1 !! p = fs !! p).
  { intros fs1. destruct (existsSync fs (filePath t)).
    - intros H. exact (unlinkSync_frame _ _ _ _ _ H NF).
    - intros [= <-]. reflexivity. }
  destruct (if existsSync fs (filePath t) then _ else _) as [fs1 | ]; [ | reflexivity].
  specialize (U fs1 eq_refl).
  destruct (existsSync fs1 (dirPath t)); [ | exact U].
  destruct (rmdirSync refused fs1 (dirPath t)) as [fs2 | ] eqn:R; [ | exact U].
  rewrite (rmdirSync_frame _ _ _ _ _ R ND). exact U.
Qed.

(** X8. On Windows, the temporary file and its directory apart, [getImage]
    leaves every path of the disk as it was, whatever the outcome and
    whatever the system refuses. *)
Theorem windows_getImage_frame env (fs : disk) p :
  (forall tempFile fs1,
     Windows.createTempFile env fs = Returns (tempFile, fs1) ->
     p <> filePath tempFile /\ p <> dirPath tempFile) ->
  snd (Windows.getImage env fs) !! p = fs !! p.
Proof.
  intros H.
  destruct (Windows.createTempFile env fs) as [e | [tempFile fs1]] eqn:T.
  - unfold Windows.getImage. rewrite T. reflexivity.
  - destruct (H tempFile fs1 eq_refl) as [NF ND].
    rewrite (getImage_finally _ _ _ _ T). cbn [snd].
    rewrite dispose_frame by assumption.
    destruct (createTempFile_inv _ _ _ _ T) as (_ & -> & _).
    unfold Windows.after_script, getPath.
    destruct (Windows.powershell_saved env);
      rewrite ?lookup_insert_ne by congruence; reflexivity.
Qed.

Lemma windows_getImage_frame_witness :
  snd (Windows.getImage image_env {[ "C:\Users\dev\notes.txt" := File png_bytes ]})
    !! "C:\Users\dev\notes.txt"
  = ({[ "C:\Users\dev\notes.txt" := File png_bytes ]} : disk) !! "C:\Users\dev\notes.txt".
Proof.
  apply (windows_getImage_frame image_env).
  intros tempFile fs1 T. vm_compute in T. injection T as <- _.
  split; discriminate.
Defined.

Lemma temp_paths_fresh env (fs : disk) tempFile fs1 :
  consistent fs ->
  Windows.createTempFile env fs = Returns (tempFile, fs1) ->
  fs !! filePath tempFile = None /\
  fs !! dirPath tempFile = None /\
  filePath tempFile <> dirPath tempFile /\
  fs1 = <[dirPath tempFile := Directory]> fs.
Proof.
  intros C T. destruct (createTempFile_inv _ _ _ _ T) as (Fresh & -> & name & P).
  split; [ | split; [exact Fresh | split; [ | reflexivity]]].
  - destruct (fs !! filePath tempFile) as [n | ] eqn:L; [ | reflexivity].
    exfalso. assert (S : is_Some (fs !! path_join (dirPath tempFile) name)).
    { rewrite <- P, L. eauto. }
    apply C in S. congruence.
  - rewrite P. apply path_join_neq.
Qed.

Lemma not_exists_lookup (fs : disk) p : existsSync fs p = false -> fs !! p = None.
Proof. unfold existsSync. destruct (fs !! p); [discriminate | reflexivity]. Qed.

(** X9. On Windows, when the system refuses no removal, the disk after
    [getImage] is exactly the disk before it, whether the call resolved with
    an image, resolved with null or rejected. *)
Theorem windows_getImage_restores_disk env (fs : disk) tempFile fs1 :
  consistent fs ->
  Windows.createTempFile env fs = Returns (tempFile, fs1) ->
  Windows.removal_refused env (filePath tempFile) = false ->
  Windows.removal_refused env (dirPath tempFile) = false ->
  snd (Windows.getImage env fs) = fs.
Proof.
  intros C T RF RD. rewrite (getImage_finally _ _ _ _ T). cbn [snd].
  destruct (temp_paths_fresh _ _ _ _ C T) as (NoFile & NoDir & Ne & ->).
  assert (Gone : no_artifact tempFile
                   (dispose (Windows.removal_refused env) tempFile
                      (Windows.after_script env (getPath tempFile)
                         (<[dirPath tempFile := Directory]> fs)))).
  { apply dispose_removes; try assumption; unfold Windows.after_script, getPath;
      destruct (Windows.powershell_saved env) as [content | ].
    - rewrite lookup_insert_ne by exact Ne. apply lookup_insert_eq.
    - apply lookup_insert_eq.
    - right. exists content. apply lookup_insert_eq.
    - left. rewrite lookup_insert_ne by congruence. exact NoFile. }
  destruct Gone as [GF GD]. apply not_exists_lookup in GF, GD.
  apply map_eq. intros p.
  destruct (decide (p = filePath tempFile)) as [-> | NF]; [congruence | ].
  destruct (decide (p = dirPath tempFile)) as [-> | ND]; [congruence | ].
  rewrite dispose_frame by assumption.
  unfold Windows.after_script, getPath.
  destruct (Windows.powershell_saved env);
    rewrite ?lookup_insert_ne by congruence; reflexivity.
Qed.

Lemma windows_getImage_restores_disk_witness :
  snd (Windows.getImage image_env ∅) = ∅.
Proof.
  apply (windows_getImage_restores_disk image_env ∅ the_temp_file
           {[ the_temp_dir := Directory ]}).
  - exact consistent_empty.
  - vm_compute. reflexivity.
  - reflexivity.
  - reflexivity.
Defined.

(** X7. On Windows, when the script prints the success marker, [getImage]
    resolves to exactly the bytes the script saved at the temporary path,
    with format [png], also when the cleanup afterwards is refused. *)
Theorem windows_getImage_returns_saved env (fs : disk) tempFile fs1 stdout content :
  Windows.createTempFile env fs = Returns (tempFile, fs1) ->
  Windows.powershell env = ExecOk stdout ->
  startsWith (trim stdout) "success" = true ->
  Windows.powershell_saved env = Some content ->
  fst (Windows.getImage env fs)
  = Resolved (Some {| buffer := content; format := "png" |}).
Proof.
  intros T P S W. rewrite (getImage_finally _ _ _ _ T). cbn [fst].
  unfold Windows.acquire, Windows.executeClipboardCommand, Windows.after_script.
  rewrite P, S, W. unfold existsSync, readFileSync.
  rewrite lookup_insert_eq. reflexivity.
Qed.

Lemma windows_getImage_returns_saved_witness :
  fst (Windows.getImage locked_file_env ∅)
  = Resolved (Some {| buffer := png_bytes; format := "png" |}).
Proof.
  apply (windows_getImage_returns_saved locked_file_env ∅ the_temp_file
           {[ the_temp_dir := Directory ]} ("success" ++ newline)).
  - vm_compute. reflexivity.
  - reflexivity.
  - vm_compute. reflexivity.
  - reflexivity.
Defined.

Lemma dispose_unfold refused t (fs : disk) :
  dispose refused t fs =
  match fs !! filePath t with
  | Some (File _) =>
      if refused (filePath t) then fs
      else match delete (filePath t) fs !! dirPath t with
           | Some Directory =>
               if refused (dirPath t) then delete (filePath t) fs
               else delete (dirPath t) (delete (filePath t) fs)
           | _ => delete (filePath t) fs
           end
  | Some Directory => fs
  | None =>
      match fs !! dirPath t with
      | Some Directory => if refused (dirPath t) then fs else delete (dirPath t) fs
      | _ => fs
      end
  end.
Proof.
  unfold dispose, existsSync, unlinkSync, rmdirSync.
  destruct (fs !! filePath t) as [[c | ] | ]; try reflexivity.
  - destruct (refused (filePath t)); [reflexivity | ].
    destruct (delete (filePath t) fs !! dirPath t) as [[c' | ] | ]; try reflexivity.
    destruct (refused (dirPath t)); reflexivity.
  - destruct (fs !! dirPath t) as [[c' | ] | ]; try reflexivity.
    destruct (refused (dirPath t)); reflexivity.
Qed.

(** X10. [ManagedTempFile.dispose] is idempotent: disposing twice leaves
    the disk as disposing once does, whatever exists and whatever is
    refused. *)
Theorem dispose_idempotent refused t (fs : disk) :
  dispose refused t (dispose refused t fs) = dispose refused t fs.
Proof.
  rewrite (dispose_unfold refused t fs).
  destruct (fs !! filePath t) as [[c | ] | ] eqn:F.
  - destruct (refused (filePath t)) eqn:RF.
    + rewrite dispose_unfold, F, RF. reflexivity.
    + destruct (delete (filePath t) fs !! dirPath t) as [[c' | ] | ] eqn:D.
      * rewrite dispose_unfold, lookup_delete_eq, D. reflexivity.
      * destruct (refused (dirPath t)) eqn:RD.
        -- rewrite dispose_unfold, lookup_delete_eq, D, RD. reflexivity.
        -- rewrite dispose_unfold.
           assert (NE : filePath t <> dirPath t).
           { intros E. rewrite E, lookup_delete_eq in D. discriminate. }
           rewrite lookup_delete_ne, lookup_delete_eq by congruence.
           rewrite lookup_delete_eq. reflexivity.
      * rewrite dispose_unfold, lookup_delete_eq, D. reflexivity.
  - rewrite dispose_unfold, F. reflexivity.
  - destruct (fs !! dirPath t) as [[c' | ] | ] eqn:D.
    + rewrite dispose_unfold, F, D. reflexivity.
    + destruct (refused (dirPath t)) eqn:RD.
      * rewrite dispose_unfold, F, D, RD. reflexivity.
      * rewrite dispose_unfold.
        assert (NE : filePath t <> dirPath t) by congruence.
        rewrite lookup_delete_ne, F, lookup_delete_eq by congruence. reflexivity.
    + rewrite dispose_unfold, F, D. reflexivity.
Qed.

End WindowsDiskFacts.

Section ToolOrderFacts.
Import Os Clipboard Spec Scenarios.

(** X11. The loop of the Linux [getImage] returns the output of the first
    command, in order, that prints at least one byte, tagged [png]; commands
    before it failed or printed nothing; it returns null exactly when every
    command fails or prints nothing. *)
Theorem linux_first_tool_with_bytes exec cmds :
  (forall image,
     Linux.try_commands exec cmds = Some image <->
     format image = "png" /\ nonempty (buffer image) = true /\
     exists before command after,
       cmds = (before ++ command :: after)%list /\
       (forall c, In c before -> brings_nothing (exec c)) /\
       exec command = ExecOk (buffer image)) /\
  (Linux.try_commands exec cmds = None <->
   forall c, In c cmds -> brings_nothing (exec c)).
Proof.
  induction cmds as [ | c cmds [IHs IHn]].
  - split.
    + intros image. simpl. split; [discriminate | ].
      intros (_ & _ & before & command & after & E & _). destruct before; discriminate.
    + simpl. split; [contradiction | reflexivity].
  - split.
    + intros image. simpl Linux.try_commands.
      destruct (exec c) as [e | out] eqn:X.
      * rewrite IHs. split.
        -- intros (F & N & before & command & after & -> & B & C).
           split; [exact F | split; [exact N | ]].
           exists (c :: before), command, after. split; [reflexivity | ]. split; [ | exact C].
           intros c' [<- | I]; [rewrite X; exact I | exact (B c' I)].
        -- intros (F & N & before & command & after & E & B & C).
           split; [exact F | split; [exact N | ]].
           destruct before as [ | b before]; injection E as <- ->.
           ++ rewrite X in C. discriminate.
           ++ exists before, command, after. split; [reflexivity | ]. split; [ | exact C].
              intros c' I. apply B. right. exact I.
      * destruct (nonempty out) eqn:N.
        -- split.
           ++ intros [= <-]. simpl. split; [reflexivity | split; [exact N | ]].
              exists [], c, cmds. split; [reflexivity | ]. split; [contradiction | exact X].
           ++ intros (F & N' & before & command & after & E & B & C).
              destruct before as [ | b before]; injection E as <- ->.
              ** rewrite X in C. injection C as ->. destruct image as [buf fmt].
                 simpl in *. subst. reflexivity.
              ** exfalso. specialize (B c (or_introl eq_refl)). rewrite X in B.
                 simpl in B. subst out. discriminate.
        -- rewrite IHs. split.
           ++ intros (F & N' & before & command & after & -> & B & C).
              split; [exact F | split; [exact N' | ]].
              exists (c :: before), command, after. split; [reflexivity | ]. split; [ | exact C].
              intros c' [<- | I]; [ | exact (B c' I)].
              rewrite X. simpl. destruct out; [reflexivity | discriminate].
           ++ intros (F & N' & before & command & after & E & B & C).
              split; [exact F | split; [exact N' | ]].
              destruct before as [ | b before]; injection E as <- ->.
              ** rewrite X in C. injection C as ->. congruence.
              ** exists before, command, after. split; [reflexivity | ]. split; [ | exact C].
                 intros c' I. apply B. right. exact I.
    + simpl Linux.try_commands. destruct (exec c) as [e | out] eqn:X.
      * rewrite IHn. split.
        -- intros H c' [<- | I]; [rewrite X; exact I | exact (H c' I)].
        -- intros H c' I. apply H. right. exact I.
      * destruct (nonempty out) eqn:N.
        -- split; [discriminate | ]. intros H.
           specialize (H c (or_introl eq_refl)). rewrite X in H. simpl in H.
           subst out. discriminate.
        -- rewrite IHn. split.
           ++ intros H c' [<- | I]; [ | exact (H c' I)].
              rewrite X. simpl. destruct out; [reflexivity | discriminate].
           ++ intros H c' I. apply H. right. exact I.
Qed.

(** X12. The loop of the Linux [hasImage] is answered by the first command
    that does not fail: the result is true exactly when that command lists
    [image/png] or [image/jpeg]. A tool that runs and lists no image type
    ends the search; later tools are not asked. *)
Theorem linux_first_answer exec cmds :
  Linux.first_answer exec cmds = true <->
  exists before command after output,
    cmds = (before ++ command :: after)%list /\
    (forall c, In c before -> fails (exec c)) /\
    exec command = ExecOk output /\
    Linux.lists_image output = true.
Proof.
  induction cmds as [ | c cmds IH]; simpl.
  - split; [discriminate | ].
    intros (before & command & after & output & E & _). destruct before; discriminate.
  - destruct (exec c) as [e | out] eqn:X.
    + rewrite IH. split.
      * intros (before & command & after & output & -> & B & C & L).
        exists (c :: before), command, after, output.
        split; [reflexivity | ]. split; [ | auto].
        intros c' [<- | I]; [rewrite X; exact I | exact (B c' I)].
      * intros (before & command & after & output & E & B & C & L).
        destruct before as [ | b before]; injection E as <- ->.
        -- rewrite X in C. discriminate.
        -- exists before, command, after, output. split; [reflexivity | ].
           split; [ | auto]. intros c' I. apply B. right. exact I.
    + split.
      * intros L. exists [], c, cmds, out. split; [reflexivity | ].
        split; [contradiction | auto].
      * intros (before & command & after & output & E & B & C & L).
        destruct before as [ | b before]; injection E as <- ->.
        -- rewrite X in C. injection C as ->. exact L.
        -- exfalso. specialize (B c (or_introl eq_refl)). rewrite X in B. exact B.
Qed.

(** X13. [hasImage] rejects on Windows exactly when the script process
    fails; on Linux and on macOS (both revisions) it always resolves. *)
Theorem hasImage_rejects_only_on_windows :
  (forall ended, rejected (Windows.hasImage ended) <-> fails ended) /\
  (forall exec, exists b, Linux.hasImage exec = Resolved b) /\
  (forall exec, exists b, MacOS.hasImage exec = Resolved b) /\
  (forall env presence, exists b, MacOSRevised.hasImage env presence = Resolved b).
Proof.
  split; [ | split; [ | split]].
  - intros [e | stdout]; simpl; split; try tauto.
    + intros _. exists e. reflexivity.
    + intros [e H]. discriminate.
  - intros exec. eexists. reflexivity.
  - intros exec. unfold MacOS.hasImage. destruct (exec _); eauto.
  - intros env [e | result]; simpl; [ | eauto].
    destruct (MacOSRevised.executeCommand env _); eauto.
Qed.

End ToolOrderFacts.

Section RevisedFacts.
Import Os Clipboard Spec Scenarios.

(** X14. Through the service interface [getImage] can reject on Windows
    only; the Linux and macOS variants, and the 1.0.1 macOS revision, always
    resolve. *)
Theorem getImage_rejects_only_on_windows :
  (forall service m fs,
     rejected (fst (getImage service m fs)) -> service = WindowsService) /\
  (forall env fs, ~ rejected (fst (MacOSRevised.getImage env fs))).
Proof.
  split.
  - intros [ | | ] m fs [e H]; [reflexivity | discriminate | ].
    exfalso. cbn [getImage fst] in H.
    destruct (MacOS_getImage_resolves (exec m)) as [r R]. congruence.
  - intros env fs [e H]. unfold MacOSRevised.getImage in H.
    destruct (MacOSRevised.getImageViaAppleScript env fs) as [[buf | e'] fs1];
      [destruct (nonempty buf) | ]; discriminate.
Qed.

(** X15. In the 1.0.1 revision of the macOS service, a non-null result of
    [getImage] has a buffer of length greater than 0 and a format that is
    [png], [tiff] or [jpeg]. *)
Theorem revised_result_has_bytes env (fs : disk) image :
  fst (MacOSRevised.getImage env fs) = Resolved (Some image) ->
  (0 < length (buffer image))%nat /\
  (format image = "png" \/ format image = "tiff" \/ format image = "jpeg").
Proof.
  intros H. exact (MacOSRevised_getImage_well_formed env fs (Some image) H).
Qed.

Lemma revised_result_has_bytes_witness :
  (0 < length (buffer {| buffer := tiff_bytes; format := "tiff" |}))%nat /\
  (format {| buffer := tiff_bytes; format := "tiff" |} = "png" \/
   format {| buffer := tiff_bytes; format := "tiff" |} = "tiff" \/
   format {| buffer := tiff_bytes; format := "tiff" |} = "jpeg").
Proof.
  apply (revised_result_has_bytes tiff_only_revised ∅).
  vm_compute. reflexivity.
Defined.

Lemma try_formats_skip env uti fmt rest :
  brings_nothing (MacOSRevised.getImageViaPbpaste env uti) ->
  MacOSRevised.try_formats env ((uti, fmt) :: rest) = MacOSRevised.try_formats env rest.
Proof.
  simpl. destruct (MacOSRevised.getImageViaPbpaste env uti) as [e | out]; [reflexivity | ].
  simpl. intros ->. reflexivity.
Qed.

(** X16. The 1.0.1 revision keeps its strategy order: bytes from the
    AppleScript step are returned as [png] whatever [pbpaste] holds;
    otherwise the first of the requests [public.png], [public.tiff],
    [public.jpeg] that prints bytes is returned, tagged [png], [tiff] or
    [jpeg], the requests before it having brought nothing. *)
Theorem revised_strategy_order env (fs : disk) :
  (forall bytes,
     fst (MacOSRevised.getImageViaAppleScript env fs) = Resolved bytes ->
     nonempty bytes = true ->
     fst (MacOSRevised.getImage env fs)
     = Resolved (Some {| buffer := bytes; format := "png" |})) /\
  (forall png,
     (forall bytes, fst (MacOSRevised.getImageViaAppleScript env fs) = Resolved bytes ->
                    bytes = []) ->
     MacOSRevised.shell env "pbpaste -Prefer public.png" = ExecOk png ->
     nonempty png = true ->
     fst (MacOSRevised.getImage env fs)
     = Resolved (Some {| buffer := png; format := "png" |})) /\
  (forall tiff,
     (forall bytes, fst (MacOSRevised.getImageViaAppleScript env fs) = Resolved bytes ->
                    bytes = []) ->
     brings_nothing (MacOSRevised.shell env "pbpaste -Prefer public.png") ->
     MacOSRevised.shell env "pbpaste -Prefer public.tiff" = ExecOk tiff ->
     nonempty tiff = true ->
     fst (MacOSRevised.getImage env fs)
     = Resolved (Some {| buffer := tiff; format := "tiff" |})) /\
  (forall jpeg,
     (forall bytes, fst (MacOSRevised.getImageViaAppleScript env fs) = Resolved bytes ->
                    bytes = []) ->
     brings_nothing (MacOSRevised.shell env "pbpaste -Prefer public.png") ->
     brings_nothing (MacOSRevised.shell env "pbpaste -Prefer public.tiff") ->
     MacOSRevised.shell env "pbpaste -Prefer public.jpeg" = ExecOk jpeg ->
     nonempty jpeg = true ->
     fst (MacOSRevised.getImage env fs)
     = Resolved (Some {| buffer := jpeg; format := "jpeg" |})).
Proof.
  assert (Fallback : (forall bytes,
             fst (MacOSRevised.getImageViaAppleScript env fs) = Resolved bytes ->
             bytes = []) ->
          fst (MacOSRevised.getImage env fs)
          = Resolved (MacOSRevised.try_formats env MacOSRevised.formats)).
  { intros A. unfold MacOSRevised.getImage.
    destruct (MacOSRevised.getImageViaAppleScript env fs) as [[buf | e] fs1];
      cbn [fst] in *; [ | reflexivity].
    rewrite (A buf eq_refl). reflexivity. }
  split; [ | split; [ | split]].
  - intros bytes A N. unfold MacOSRevised.getImage.
    destruct (MacOSRevised.getImageViaAppleScript env fs) as [[buf | e] fs1];
      cbn [fst] in *; [ | discriminate].
    injection A as ->. rewrite N. reflexivity.
  - intros png A P N. rewrite (Fallback A).
    unfold MacOSRevised.formats. cbn [MacOSRevised.try_formats].
    unfold MacOSRevised.getImageViaPbpaste at 1.
    change ("pbpaste -Prefer " ++ "public.png") with "pbpaste -Prefer public.png".
    rewrite P, N. reflexivity.
  - intros tiff A P T N. rewrite (Fallback A).
    unfold MacOSRevised.formats. rewrite try_formats_skip by exact P.
    cbn [MacOSRevised.try_formats]. unfold MacOSRevised.getImageViaPbpaste at 1.
    change ("pbpaste -Prefer " ++ "public.tiff") with "pbpaste -Prefer public.tiff".
    rewrite T, N. reflexivity.
  - intros jpeg A P T J N. rewrite (Fallback A).
    unfold MacOSRevised.formats. rewrite try_formats_skip by exact P.
    rewrite try_formats_skip by exact T.
    cbn [MacOSRevised.try_formats]. unfold MacOSRevised.getImageViaPbpaste at 1.
    change ("pbpaste -Prefer " ++ "public.jpeg") with "pbpaste -Prefer public.jpeg".
    rewrite J, N. reflexivity.
Qed.

(** X17. In the 1.0.1 revision, when the AppleScript step resolves, its
    bytes are the content of the file named by the trimmed output of the
    script, and that file has been removed from the disk. *)
Theorem applescript_temp_file_consumed env (fs : disk) bytes :
  fst (MacOSRevised.getImageViaAppleScript env fs) = Resolved bytes ->
  exists stdout,
    MacOSRevised.osascript env = ExecOk stdout /\
    readFileSync (MacOSRevised.after_script env fs) (trim stdout) = Some bytes /\
    snd (MacOSRevised.getImageViaAppleScript env fs)
    = delete (trim stdout) (MacOSRevised.after_script env fs) /\
    existsSync (snd (MacOSRevised.getImageViaAppleScript env fs)) (trim stdout) = false.
Proof.
  unfold MacOSRevised.getImageViaAppleScript.
  destruct (MacOSRevised.osascript env) as [e | stdout]; [discriminate | ].
  destruct (startsWith (trim stdout) "ERROR:"); [discriminate | ].
  destruct (readFileSync _ _) as [content | ] eqn:R; [ | discriminate].
  unfold unlinkSync. unfold readFileSync in R.
  destruct (MacOSRevised.after_script env fs !! trim stdout) as [[c | ] | ] eqn:L;
    try discriminate.
  injection R as ->.
  destruct (MacOSRevised.removal_refused env (trim stdout)); [discriminate | ].
  cbn [fst snd]. intros [= <-]. exists stdout.
  split; [reflexivity | ]. split; [unfold readFileSync; rewrite L; reflexivity | ].
  split; [reflexivity | ].
  unfold existsSync. rewrite lookup_delete_eq. reflexivity.
Qed.

Lemma applescript_temp_file_consumed_witness :
  exists stdout,
    MacOSRevised.osascript applescript_env = ExecOk stdout /\
    readFileSync (MacOSRevised.after_script applescript_env ∅) (trim stdout)
    = Some png_bytes /\
    snd (MacOSRevised.getImageViaAppleScript applescript_env ∅)
    = delete (trim stdout) (MacOSRevised.after_script applescript_env ∅) /\
    existsSync (snd (MacOSRevised.getImageViaAppleScript applescript_env ∅))
      (trim stdout) = false.
Proof.
  apply (applescript_temp_file_consumed applescript_env ∅ png_bytes).
  vm_compute. reflexivity.
Defined.

End RevisedFacts.

(** ** [src/services/fileManager.ts]: the directory and the files in it *)

Section DirectoryFacts.
Import Js Os FileManager Spec Scenarios.

Lemma getImagesDirectory_stable ws st dir st1 :
  getImagesDirectory ws st = Some (dir, st1) ->
  forall ws', getImagesDirectory ws' st1 = Some (dir, st1).
Proof.
  unfold getImagesDirectory, getWorkspaceFolder.
  destruct (cachedImagesDir st) as [d | ] eqn:CD.
  - intros [= <- <-] ws'. rewrite CD. reflexivity.
  - destruct (cachedWorkspaceFolder st) as [f | ].
    + intros [= <- <-] ws'. reflexivity.
    + destruct (workspaceFolders ws) as [ | folder others]; [discriminate | ].
      intros [= <- <-] ws'. reflexivity.
Qed.

(** X18. [getImagesDirectory] caches its answer: once it has resolved, every
    later call returns the same directory and leaves the caches alone,
    whatever the workspace folders have become. With empty caches the
    directory is [.claude/claude-code-chat-images] under the first workspace
    folder. *)
Theorem getImagesDirectory_cached ws st dir st1 :
  getImagesDirectory ws st = Some (dir, st1) ->
  (forall ws', getImagesDirectory ws' st1 = Some (dir, st1)) /\
  (cachedImagesDir st = None -> cachedWorkspaceFolder st = None ->
   exists folder others,
     workspaceFolders ws = folder :: others /\
     dir = joinPath (joinPath folder ".claude") "claude-code-chat-images").
Proof.
  unfold getImagesDirectory, getWorkspaceFolder.
  destruct (cachedImagesDir st) as [d | ] eqn:CD.
  - intros [= <- <-]. split; [ | discriminate].
    intros ws'. rewrite CD. reflexivity.
  - destruct (cachedWorkspaceFolder st) as [f | ] eqn:CF.
    + intros [= <- <-]. split; [ | discriminate]. intros ws'. reflexivity.
    + destruct (workspaceFolders ws) as [ | folder others]; [discriminate | ].
      intros [= <- <-]. split; [intros ws'; reflexivity | ].
      intros _ _. exists folder, others. auto.
Qed.

Lemma getImagesDirectory_cached_witness :
  (forall ws', getImagesDirectory ws' cached = Some (images_dir, cached)) /\
  (cachedImagesDir initial = None -> cachedWorkspaceFolder initial = None ->
   exists folder others,
     workspaceFolders (workspace_with mixed_listing) = folder :: others /\
     images_dir = joinPath (joinPath folder ".claude") "claude-code-chat-images").
Proof.
  apply (getImagesDirectory_cached (workspace_with mixed_listing) initial images_dir cached).
  reflexivity.
Defined.

(** X19. For a listing with unique names, [cleanupOldImages] asks to delete
    an entry exactly when [retentionDays] is not 0 and the entry is a plain
    file, not named [.gitignore], whose name is [image_<digits>.] with a
    timestamp strictly below the cutoff. *)
Theorem cleanup_requests_exactly ws now r st imagesDir st1 files entry :
  getImagesDirectory ws st = Some (imagesDir, st1) ->
  readDirectory ws imagesDir = Some files ->
  List.NoDup (List.map fst files) ->
  In entry files ->
  (In (fst entry) (fst (cleanupOldImages ws now r st)) <->
   strict_eq r (of_Z 0) = false /\ deletable (cutoffTime now r) entry).
Proof.
  intros G R N I. rewrite (cleanupOldImages_reads _ _ _ _ _ _ _ G R).
  destruct (strict_eq r (of_Z 0)).
  - split; [contradiction | intros [H _]; discriminate].
  - split.
    + intros M. split; [reflexivity | ].
      apply in_map_iff in M. destruct M as (e & E & F).
      apply filter_In in F. destruct F as [F C].
      rewrite <- (unique_name files e entry N F I E).
      apply cleanup_candidate_spec. exact C.
    + intros [_ D]. apply in_map, filter_In. split; [exact I | ].
      apply cleanup_candidate_spec. exact D.
Qed.

Lemma cleanup_requests_exactly_witness :
  In (fst ("image_1000.png", FileType_File))
     (fst (cleanupOldImages (workspace_with mixed_listing) a_moment (of_Z 30) initial)) <->
  strict_eq (of_Z 30) (of_Z 0) = false /\
  deletable (cutoffTime a_moment (of_Z 30)) ("image_1000.png", FileType_File).
Proof.
  apply (cleanup_requests_exactly (workspace_with mixed_listing) a_moment (of_Z 30)
           initial images_dir cached mixed_listing ("image_1000.png", FileType_File)).
  - reflexivity.
  - reflexivity.
  - unfold mixed_listing. simpl.
    repeat (constructor; [simpl; intuition discriminate | ]). constructor.
  - unfold mixed_listing. simpl. auto.
Defined.

Lemma cutoffTime_NaN now : cutoffTime now NaN = NaN.
Proof. reflexivity. Qed.

Lemma lt_NaN_r a : lt a NaN = false.
Proof. destruct a as [ | [ | ] | q]; reflexivity. Qed.

Lemma filter_none {A : Type} (f : A -> bool) l :
  (forall x, f x = false) -> List.filter f l = [].
Proof.
  intros H. induction l as [ | x l IH]; simpl; [reflexivity | ].
  rewrite H. exact IH.
Qed.

(** X20. Edge values of [retentionDays] in [cleanupOldImages]: with [NaN]
    nothing is deleted; with a negative number of days the cutoff lies in
    the future, and even an image written at the moment of the cleanup is
    selected for deletion. *)
Theorem cleanup_edge_retentions ws now st :
  fst (cleanupOldImages ws now NaN st) = [] /\
  (forall days t format,
     days < 0 -> 0 <= t <= now ->
     cleanup_candidate (cutoffTime now (of_Z days))
       (generateFileName t format, FileType_File) = true).
Proof.
  split.
  - unfold cleanupOldImages. cbn [strict_eq].
    destruct (getImagesDirectory ws st) as [[dir st1] | ]; [ | reflexivity].
    destruct (readDirectory ws dir) as [files | ]; [ | reflexivity].
    cbn [fst]. rewrite filter_none; [reflexivity | ].
    intros [name ty]. unfold cleanup_candidate, isOldImageFile.
    destruct (match_image name); [ | apply andb_false_r].
    rewrite cutoffTime_NaN, lt_NaN_r. apply andb_false_r.
  - intros days t format D T.
    rewrite cleanup_candidate_generated by lia. apply Z.ltb_lt. lia.
Qed.

End DirectoryFacts.

Section ImageStoreFacts.
Import Js Os FileManager ImageStore Spec Scenarios.

Lemma append_inj_l p a b : p ++ a = p ++ b -> a = b.
Proof.
  induction p as [ | c p IH]; simpl; [auto | ].
  intros E. injection E as E. exact (IH E).
Qed.

Lemma joinPath_inj dir a b : joinPath dir a = joinPath dir b -> a = b.
Proof.
  unfold joinPath. intros E. apply append_inj_l in E. simpl in E.
  injection E as E. exact E.
Qed.

Lemma joinPath_neq dir name : joinPath dir name <> dir.
Proof. unfold joinPath. apply append_neq. discriminate. Qed.

Lemma generated_not_gitignore now format :
  generateFileName now format <> ".gitignore".
Proof. unfold generateFileName. simpl. discriminate. Qed.

Lemma writeFile_inv h u content (fs fs' : disk) :
  writeFile h u content fs = Returns fs' -> fs' = <[u := File content]> fs.
Proof.
  unfold writeFile. destruct (write_error h u); [discriminate | ].
  destruct (fs !! u) as [[c | ] | ]; intros [= <-]; reflexivity.
Qed.

Lemma existsSync_insert (fs : disk) u n p :
  existsSync fs p = true -> existsSync (<[u := n]> fs) p = true.
Proof.
  unfold existsSync. destruct (decide (u = p)) as [-> | N].
  - rewrite lookup_insert_eq. reflexivity.
  - rewrite lookup_insert_ne by exact N. auto.
Qed.

Lemma ensureGitignoreExists_resolves h dir (fs fs' : disk) :
  ensureGitignoreExists h dir fs = (Resolved tt, fs') ->
  existsSync fs' (joinPath dir ".gitignore") = true.
Proof.
  unfold ensureGitignoreExists, stat.
  destruct (existsSync fs (joinPath dir ".gitignore")) eqn:X.
  - destruct (negb _); cbn [andb].
    + intros [= <-]. exact X.
    + destruct (writeFile _ _ _ _) as [e | fs1] eqn:W; [discriminate | ].
      intros [= <-]. apply writeFile_inv in W. subst.
      unfold existsSync. rewrite lookup_insert_eq. reflexivity.
  - cbn [andb]. destruct (writeFile _ _ _ _) as [e | fs1] eqn:W; [discriminate | ].
    intros [= <-]. apply writeFile_inv in W. subst.
    unfold existsSync. rewrite lookup_insert_eq. reflexivity.
Qed.

Lemma createImageFile_inv h now data format st (fs : disk) f st' fs' :
  createImageFile h now data format st fs = (Resolved f, st', fs') ->
  exists dir fs1,
    getImagesDirectory (workspace h) st = Some (dir, st') /\
    existsSync fs1 (joinPath dir ".gitignore") = true /\
    f = new_ManagedImageFile (joinPath dir (generateFileName now format)) /\
    fs' = <[joinPath dir (generateFileName now format) := File data]> fs1.
Proof.
  unfold createImageFile, ensureDirectoryExists.
  destruct (getImagesDirectory (workspace h) st) as [[dir st1] | ] eqn:G; [ | discriminate].
  pose proof (getImagesDirectory_stable _ _ _ _ G) as Cached.
  destruct (ensureGitignoreExists h dir _) as [[[] | e] fs1] eqn:E; [ | discriminate].
  rewrite Cached.
  destruct (writeFile _ _ _ _) as [e | fs2] eqn:W; [discriminate | ].
  intros [= <- <- <-]. apply writeFile_inv in W.
  exists dir, fs1. split; [reflexivity | ].
  split; [exact (ensureGitignoreExists_resolves _ _ _ _ E) | auto].
Qed.

(** X21. When [createImageFile] resolves, the file is
    [image_<now>.<format>] in the images directory, the disk holds the image
    bytes at that path and a [.gitignore] beside it, and [dispose] of the
    returned file deletes nothing (it is built with [shouldCleanup] off). *)
Theorem createImageFile_written h now data format st (fs : disk) f st' fs' :
  createImageFile h now data format st fs = (Resolved f, st', fs') ->
  exists dir,
    getImagesDirectory (workspace h) st = Some (dir, st') /\
    ImageStore.getPath f = joinPath dir (generateFileName now format) /\
    readFileSync fs' (ImageStore.getPath f) = Some data /\
    existsSync fs' (joinPath dir ".gitignore") = true /\
    ImageStore.dispose h f fs' = fs'.
Proof.
  intros H. destruct (createImageFile_inv _ _ _ _ _ _ _ _ _ H)
    as (dir & fs1 & G & X & -> & ->).
  exists dir. split; [exact G | ]. split; [reflexivity | ].
  split; [ | split; [ | reflexivity]].
  - unfold readFileSync, ImageStore.getPath, new_ManagedImageFile. cbn [uri].
    rewrite lookup_insert_eq. reflexivity.
  - apply existsSync_insert. exact X.
Qed.

Lemma createImageFile_written_witness :
  exists dir,
    getImagesDirectory (workspace plain_host) initial = Some (dir, cached) /\
    ImageStore.getPath
      (new_ManagedImageFile (joinPath images_dir (generateFileName a_moment "png")))
    = joinPath dir (generateFileName a_moment "png") /\
    readFileSync (snd (createImageFile plain_host a_moment png_bytes "png" initial ∅))
      (ImageStore.getPath
         (new_ManagedImageFile (joinPath images_dir (generateFileName a_moment "png"))))
    = Some png_bytes /\
    existsSync (snd (createImageFile plain_host a_moment png_bytes "png" initial ∅))
      (joinPath dir ".gitignore") = true /\
    ImageStore.dispose plain_host
      (new_ManagedImageFile (joinPath images_dir (generateFileName a_moment "png")))
      (snd (createImageFile plain_host a_moment png_bytes "png" initial ∅))
    = snd (createImageFile plain_host a_moment png_bytes "png" initial ∅).
Proof.
  apply (createImageFile_written plain_host a_moment png_bytes "png" initial ∅).
  vm_compute. reflexivity.
Defined.





End ImageStoreFacts.

(** ** [src/commands/uploadImage.ts] *)

Section WorkflowFacts.
Import Js Os Clipboard Results Workflow.

Context {S : Type}.
Implicit Types (deps : Dependencies S) (window : Window) (w : World S).

Lemma validateRemoteConnection_remote window :
  remote window -> validateRemoteConnection window = Success tt.
Proof.
  intros (name & R & N). unfold validateRemoteConnection. rewrite R.
  destruct (String.eqb_spec name EmptyString); [contradiction | reflexivity].
Qed.

Lemma log_log (w : World S) e1 e2 :
  log S e2 (log S e1 w) = {| services := services w; shown := (shown w ++ [e1; e2])%list |}.
Proof. unfold log. simpl. rewrite <- app_assoc. reflexivity. Qed.

(** X24. Without a remote connection ([remoteName] missing or empty) the
    command fails with the clipboard error about the missing connection, no
    service is called, and [handleUploadCommand] shows exactly one error
    message. *)
Theorem no_remote_no_upload deps window destination w :
  remoteName window = None \/ remoteName window = Some EmptyString ->
  execute S deps window destination w = (Failure (ClipboardError no_remote_message), w) /\
  handleUploadCommand S deps window destination w
  = log S (ErrorMessage ("Upload error: " ++ no_remote_message)) w.
Proof.
  intros R.
  assert (E : execute S deps window destination w
              = (Failure (ClipboardError no_remote_message), w)).
  { unfold execute, validateRemoteConnection. destruct R as [-> | ->]; reflexivity. }
  split; [exact E | ]. unfold handleUploadCommand. rewrite E. reflexivity.
Qed.

(** X25. In a remote window, when [getImage] resolves to null or rejects,
    the command fails with "No image found in clipboard" or "Failed to
    access clipboard"; nothing is cleaned up or written, and the user is
    shown the message twice: as a warning, then as "Upload error: ...". *)
Theorem clipboard_failure_shown deps window destination w outcome s1 :
  remote window ->
  clipboard_getImage deps (services w) = (outcome, s1) ->
  (forall image, outcome <> Resolved (Some image)) ->
  execute S deps window destination w
  = (Failure (ClipboardError (clipboard_message outcome)),
     {| services := s1;
        shown := (shown w ++ [ ProgressShown "Checking clipboard...";
                               WarningMessage (clipboard_message outcome) ])%list |}) /\
  handleUploadCommand S deps window destination w
  = {| services := s1;
       shown := (shown w ++ [ ProgressShown "Checking clipboard...";
                              WarningMessage (clipboard_message outcome);
                              ErrorMessage ("Upload error: " ++ clipboard_message outcome)
                            ])%list |}.
Proof.
  intros R G N.
  assert (E : execute S deps window destination w
              = (Failure (ClipboardError (clipboard_message outcome)),
                 {| services := s1;
                    shown := (shown w ++ [ ProgressShown "Checking clipboard...";
                                           WarningMessage (clipboard_message outcome) ])%list |})).
  { unfold execute. rewrite (validateRemoteConnection_remote _ R).
    unfold withProgress, checkClipboard. cbn [services log]. rewrite G.
    destruct outcome as [[image | ] | e].
    - exfalso. exact (N image eq_refl).
    - unfold with_services, log. cbn. rewrite <- app_assoc. reflexivity.
    - unfold with_services, log. cbn. rewrite <- app_assoc. reflexivity. }
  split; [exact E | ]. unfold handleUploadCommand. rewrite E.
  unfold log. cbn. rewrite <- app_assoc. reflexivity.
Qed.

Lemma insertImageUrl_outcome window url destination w :
  (can_insert window destination = true ->
   insertImageUrl S window url destination w
   = (Success tt,
      {| services := services w;
         shown := (shown w ++ insertion_events window url destination)%list |})) /\
  (can_insert window destination = false ->
   exists error, insertImageUrl S window url destination w = (Failure error, w)).
Proof.
  unfold can_insert, insertImageUrl, insertion_events.
  destruct destination.
  - destruct (activeTextEditor window) as [[[ | ] | e] | ]; split; intros H;
      try discriminate; eauto; try reflexivity.
    rewrite app_nil_r. destruct w; reflexivity.
  - destruct (activeTerminal window) as [[e | []] | ]; split; intros H;
      try discriminate; eauto.
Qed.

(** X26. When the link cannot be inserted (no active editor or terminal,
    or the insertion throws), the cleanup has already run and the image file
    has already been written; the command then disposes of the file,
    returns the failure, and neither clears the clipboard nor shows the
    upload message. *)
Theorem insertion_failure_disposes deps window destination w image s1 s2 file s3 :
  remote window ->
  clipboard_getImage deps (services w) = (Resolved (Some image), s1) ->
  fileManager_cleanupOldImages deps (config_getRetentionDays deps s1) s1
  = (Resolved tt, s2) ->
  fileManager_createImageFile deps (buffer image) (format image) s2
  = (Resolved file, s3) ->
  can_insert window destination = false ->
  exists error,
    execute S deps window destination w
    = (Failure error,
       {| services := file_dispose file s3;
          shown := (shown w ++ upload_prefix)%list |}).
Proof.
  intros R G C F I.
  destruct (insertImageUrl_outcome window (file_path file) destination
              {| services := s3;
                 shown := (shown w ++ upload_prefix)%list |}) as [_ Fail].
  destruct (Fail I) as [error Ins]. exists error.
  unfold execute. rewrite (validateRemoteConnection_remote _ R).
  unfold withProgress at 1. unfold checkClipboard. cbn [services log]. rewrite G.
  unfold withProgress, uploadAndInsert, report, with_services, log.
  cbn [services shown step_message step_increment preparing uploading inserting].
  rewrite C. cbn [services shown]. rewrite F. cbn [services shown].
  unfold upload_prefix, progress_event in Ins.
  cbn [step_message step_increment preparing uploading inserting] in Ins.
  repeat rewrite <- app_assoc. cbn [app]. rewrite Ins. reflexivity.
Qed.

Lemma execute_success deps window destination w image s1 s2 file s3 s4 :
  remote window ->
  clipboard_getImage deps (services w) = (Resolved (Some image), s1) ->
  fileManager_cleanupOldImages deps (config_getRetentionDays deps s1) s1
  = (Resolved tt, s2) ->
  fileManager_createImageFile deps (buffer image) (format image) s2
  = (Resolved file, s3) ->
  can_insert window destination = true ->
  (if truthy (config_getClearClipboardAfterUpload deps s3)
   then clipboard_clear deps s3 else (Resolved tt, s3)) = (Resolved tt, s4) ->
  execute S deps window destination w
  = (Success (file_path file),
     {| services := s4;
        shown := (shown w ++ upload_prefix
                  ++ insertion_events window (file_path file) destination
                  ++ [ progress_event cleaning;
                       InformationMessage ("Image uploaded: " ++ file_path file)
                     ])%list |}).
Proof.
  intros R G C F I Cl.
  destruct (insertImageUrl_outcome window (file_path file) destination
              {| services := s3;
                 shown := (shown w ++ upload_prefix)%list |}) as [Ok _].
  specialize (Ok I).
  unfold execute. rewrite (validateRemoteConnection_remote _ R).
  unfold withProgress at 1. unfold checkClipboard. cbn [services log]. rewrite G.
  unfold withProgress, uploadAndInsert, report, with_services, log.
  cbn [services shown step_message step_increment preparing uploading inserting].
  rewrite C. cbn [services shown]. rewrite F. cbn [services shown].
  unfold upload_prefix, progress_event in Ok.
  cbn [step_message step_increment preparing uploading inserting] in Ok.
  repeat rewrite <- app_assoc. cbn [app]. rewrite Ok.
  cbn [services shown]. rewrite Cl.
  unfold upload_prefix, progress_event. cbn [services shown step_message step_increment
    preparing uploading inserting cleaning].
  repeat rewrite <- app_assoc. cbn [app]. reflexivity.
Qed.

(** X27. On the successful path the services are called in the order
    clipboard, cleanup (with the configured retention), file creation,
    insertion, clipboard clearing (only if the setting is truthy); the
    command returns the path of the file, and the user sees the two
    progress titles, the four progress steps around the insertion, and
    "Image uploaded: <path>" last, with no error message. *)
Theorem upload_succeeds deps window destination w image s1 s2 file s3 s4 :
  remote window ->
  clipboard_getImage deps (services w) = (Resolved (Some image), s1) ->
  fileManager_cleanupOldImages deps (config_getRetentionDays deps s1) s1
  = (Resolved tt, s2) ->
  fileManager_createImageFile deps (buffer image) (format image) s2
  = (Resolved file, s3) ->
  can_insert window destination = true ->
  (if truthy (config_getClearClipboardAfterUpload deps s3)
   then clipboard_clear deps s3 else (Resolved tt, s3)) = (Resolved tt, s4) ->
  handleUploadCommand S deps window destination w
  = {| services := s4;
       shown := (shown w ++ upload_prefix
                 ++ insertion_events window (file_path file) destination
                 ++ [ progress_event cleaning;
                      InformationMessage ("Image uploaded: " ++ file_path file) ])%list |} /\
  fst (execute S deps window destination w) = Success (file_path file).
Proof.
  intros R G C F I Cl.
  pose proof (execute_success _ _ _ _ _ _ _ _ _ _ R G C F I Cl) as E.
  split; [ | rewrite E; reflexivity].
  unfold handleUploadCommand. rewrite E. reflexivity.
Qed.

(** X28. When the editor reports that the edit was not applied ([edit]
    resolves to false), the command still returns success and announces the
    upload, although nothing was inserted. *)
Theorem unapplied_edit_counts_as_success deps window w image s1 s2 file s3 :
  remote window ->
  clipboard_getImage deps (services w) = (Resolved (Some image), s1) ->
  fileManager_cleanupOldImages deps (config_getRetentionDays deps s1) s1
  = (Resolved tt, s2) ->
  fileManager_createImageFile deps (buffer image) (format image) s2
  = (Resolved file, s3) ->
  activeTextEditor window = Some (Resolved false) ->
  truthy (config_getClearClipboardAfterUpload deps s3) = false ->
  execute S deps window editor w
  = (Success (file_path file),
     {| services := s3;
        shown := (shown w ++ upload_prefix
                  ++ [ progress_event cleaning;
                       InformationMessage ("Image uploaded: " ++ file_path file)
                     ])%list |}).
Proof.
  intros R G C F A T.
  rewrite (execute_success deps window editor w image s1 s2 file s3 s3 R G C F).
  - unfold insertion_events. rewrite A. reflexivity.
  - unfold can_insert. rewrite A. reflexivity.
  - rewrite T. reflexivity.
Qed.

Lemma In_log (w : World S) e : In e (shown (log S e w)).
Proof. unfold log. cbn. apply in_or_app. right. left. reflexivity. Qed.


End WorkflowFacts.

Section WorkflowWitnesses.
Import Js Os Clipboard Results Workflow Scenarios.

Lemma remote_window_remote editor_ : remote (remote_window editor_).
Proof. exists "ssh-remote". split; [reflexivity | discriminate]. Defined.

Lemma no_remote_no_upload_witness :
  execute (list string) (journal_deps (Resolved (Some a_png))) local_window terminal start
  = (Failure (ClipboardError no_remote_message), start) /\
  handleUploadCommand (list string) (journal_deps (Resolved (Some a_png)))
    local_window terminal start
  = log (list string) (ErrorMessage ("Upload error: " ++ no_remote_message)) start.
Proof.
  apply (no_remote_no_upload (journal_deps (Resolved (Some a_png))) local_window
           terminal start).
  left. reflexivity.
Defined.

Lemma clipboard_failure_shown_witness :
  execute (list string) (journal_deps (Resolved None)) (remote_window None) editor start
  = (Failure (ClipboardError (clipboard_message (Resolved None))),
     {| services := ["getImage"];
        shown := (shown start ++ [ ProgressShown "Checking clipboard...";
                                   WarningMessage (clipboard_message (Resolved None)) ])%list |}) /\
  handleUploadCommand (list string) (journal_deps (Resolved None)) (remote_window None)
    editor start
  = {| services := ["getImage"];
       shown := (shown start ++ [ ProgressShown "Checking clipboard...";
                                  WarningMessage (clipboard_message (Resolved None));
                                  ErrorMessage ("Upload error: "
                                                ++ clipboard_message (Resolved None)) ])%list |}.
Proof.
  apply (clipboard_failure_shown (journal_deps (Resolved None)) (remote_window None)
           editor start (Resolved None) ["getImage"]).
  - exact (remote_window_remote None).
  - reflexivity.
  - intros image. discriminate.
Defined.

Lemma insertion_failure_disposes_witness :
  exists error,
    execute (list string) (journal_deps (Resolved (Some a_png))) (remote_window None)
      editor start
    = (Failure error,
       {| services := file_dispose journal_file
                        ["getImage"; "cleanupOldImages"; "createImageFile"];
          shown := (shown start ++ upload_prefix)%list |}).
Proof.
  apply (insertion_failure_disposes (journal_deps (Resolved (Some a_png)))
           (remote_window None) editor start a_png
           ["getImage"] ["getImage"; "cleanupOldImages"] journal_file
           ["getImage"; "cleanupOldImages"; "createImageFile"]).
  - exact (remote_window_remote None).
  - reflexivity.
  - reflexivity.
  - reflexivity.
  - reflexivity.
Defined.

Lemma upload_succeeds_witness :
  handleUploadCommand (list string) (journal_deps (Resolved (Some a_png)))
    (remote_window None) terminal start
  = {| services := ["getImage"; "cleanupOldImages"; "createImageFile"; "clear"];
       shown := (shown start ++ upload_prefix
                 ++ insertion_events (remote_window None) (file_path journal_file) terminal
                 ++ [ progress_event cleaning;
                      InformationMessage ("Image uploaded: " ++ file_path journal_file)
                    ])%list |} /\
  fst (execute (list string) (journal_deps (Resolved (Some a_png))) (remote_window None)
         terminal start)
  = Success (file_path journal_file).
Proof.
  apply (upload_succeeds (journal_deps (Resolved (Some a_png))) (remote_window None)
           terminal start a_png
           ["getImage"] ["getImage"; "cleanupOldImages"] journal_file
           ["getImage"; "cleanupOldImages"; "createImageFile"]).
  - exact (remote_window_remote None).
  - reflexivity.
  - reflexivity.
  - reflexivity.
  - reflexivity.
  - reflexivity.
Defined.

(** The same services with the clearing of the clipboard switched off. *)
Lemma unapplied_edit_counts_as_success_witness :
  execute (list string) (journal_deps_keeping (Resolved (Some a_png)))
    (remote_window (Some (Resolved false))) editor start
  = (Success (file_path journal_file),
     {| services := ["getImage"; "cleanupOldImages"; "createImageFile"];
        shown := (shown start ++ upload_prefix
                  ++ [ progress_event cleaning;
                       InformationMessage ("Image uploaded: " ++ file_path journal_file)
                     ])%list |}).
Proof.
  apply (unapplied_edit_counts_as_success (journal_deps_keeping (Resolved (Some a_png)))
           (remote_window (Some (Resolved false))) start a_png
           ["getImage"] ["getImage"; "cleanupOldImages"] journal_file
           ["getImage"; "cleanupOldImages"; "createImageFile"]).
  - exact (remote_window_remote _).
  - reflexivity.
  - reflexivity.
  - reflexivity.
  - reflexivity.
  - reflexivity.
Defined.


End WorkflowWitnesses.
